(** * Rank finder and page audit funnel: a shallow embedding

    The Python sources [google_rank_finder.py] and [page_optimizer.py] drive a
    browser through Selenium.  Their functions are embedded here as programs of
    a state-and-exception monad over an explicit model of the browser session:
    the loaded document, a virtual clock, the random source, the trace of
    driver calls and the logging output. *)

From Stdlib Require Import ZArith NArith List String Ascii Bool Lia DecimalString.
Import ListNotations.
Open Scope Z_scope.

Set Warnings "-register-all".

(** ** Python strings *)

Module Py.

(** A Python 3 [str] is a sequence of Unicode code points. *)
Definition str := list N.

(** An ASCII literal as a [str]. *)
Definition U (s : string) : str := map N_of_ascii (list_ascii_of_string s).

(** [len(s)] *)
Definition len (s : str) : Z := Z.of_nat (List.length s).

(** Truth value of a string or of a list: non-empty. *)
Definition truthy {A : Type} (l : list A) : bool :=
  match l with [] => false | _ :: _ => true end.

Fixpoint startswith (p s : str) : bool :=
  match p, s with
  | [], _ => true
  | _ :: _, [] => false
  | c :: p', d :: s' => N.eqb c d && startswith p' s'
  end.

(** [needle in hay] on strings: [needle] occurs as a contiguous run. *)
Fixpoint contains (needle hay : str) : bool :=
  startswith needle hay
  || match hay with [] => false | _ :: hay' => contains needle hay' end.

(** [str.isspace] on one code point: the whitespace table of CPython. *)
Definition isspace (c : N) : bool :=
  ((9 <=? c) && (c <=? 13) || (28 <=? c) && (c <=? 32)
   || (c =? 133) || (c =? 160) || (c =? 5760)
   || (8192 <=? c) && (c <=? 8202)
   || (c =? 8232) || (c =? 8233) || (c =? 8239) || (c =? 8287)
   || (c =? 12288))%N.

Fixpoint lstrip (s : str) : str :=
  match s with
  | [] => []
  | c :: s' => if isspace c then lstrip s' else s
  end.

Definition rstrip (s : str) : str := rev (lstrip (rev s)).

(** [s.strip()] *)
Definition strip (s : str) : str := rstrip (lstrip s).

(** [s.split()]: the maximal runs of non-whitespace, in order.  [cur] holds
    the current run, reversed. *)
Fixpoint split_from (cur s : str) : list str :=
  match s with
  | [] => match cur with [] => [] | _ :: _ => [rev cur] end
  | c :: s' =>
      if isspace c
      then match cur with
           | [] => split_from [] s'
           | _ :: _ => rev cur :: split_from [] s'
           end
      else split_from (c :: cur) s'
  end.

Definition split (s : str) : list str := split_from [] s.

(** [s.replace(old, new)] for a one-character [old]. *)
Definition replace (old : N) (new s : str) : str :=
  flat_map (fun c => if N.eqb c old then new else [c]) s.

Section Digits.

(** [decimal c] is the value of [c] when it is a Unicode decimal digit: the
    characters the pattern [\d] matches and [int] reads. *)
Variable decimal : N -> option Z.

Definition isdecimal (c : N) : bool :=
  match decimal c with Some _ => true | None => false end.

Fixpoint take_digits (s : str) : str :=
  match s with
  | [] => []
  | c :: s' => if isdecimal c then c :: take_digits s' else []
  end.

(** [re.search(r'\d+', s)]: the leftmost maximal run of digits, which is
    [match.group(0)], or [None]. *)
Fixpoint re_search_digits (s : str) : option str :=
  match s with
  | [] => None
  | c :: s' => if isdecimal c then Some (take_digits s) else re_search_digits s'
  end.

(** [int(digits)] on a run of decimal digits. *)
Definition int (digits : str) : Z :=
  fold_left
    (fun acc c => 10 * acc + match decimal c with Some v => v | None => 0 end)
    digits 0.

End Digits.

(** The ASCII digits. *)
Definition ascii_decimal (c : N) : option Z :=
  if ((48 <=? c) && (c <=? 57))%N then Some (Z.of_N c - 48) else None.

(** [str(n)] for an integer. *)
Definition str_of_int (n : Z) : str := U (NilZero.string_of_int (Z.to_int n)).

End Py.

Abbreviation U := Py.U.

(** ** The browser session *)

Module Selenium.

(** Exceptions, all of them subclasses of Python's [Exception]. *)
Inductive exn : Type :=
| NoSuchElementException
| TimeoutException
| ElementClickInterceptedException
| StaleElementReferenceException
| WebDriverException
| ValueError
| OtherException (message : Py.str).

(** [str(e)], as it is interpolated in the log messages. *)
Definition str_of_exn (e : exn) : Py.str :=
  match e with
  | NoSuchElementException => U "NoSuchElementException"
  | TimeoutException => U "TimeoutException"
  | ElementClickInterceptedException => U "ElementClickInterceptedException"
  | StaleElementReferenceException => U "StaleElementReferenceException"
  | WebDriverException => U "WebDriverException"
  | ValueError => U "ValueError"
  | OtherException message => message
  end.

(** The outcome of a call: an exception raised, or a value returned. *)
Definition res (A : Type) : Type := (exn + A)%type.

(** A [WebElement] handle and the document it lives in.  What an element
    holds is read off the loaded document (text, attributes, descendants by
    CSS selector); interacting with it may raise and may load another
    document.  A document answers the driver's queries; [doc_find] depends on
    the clock, since a page changes while the script waits. *)
Inductive element : Type := mkElement {
  el_text : Py.str;
  el_attribute : Py.str -> option Py.str;
  el_find : Py.str -> list element;
  el_clear : res unit;
  el_send_keys : Py.str -> res (option document);
  el_click : res (option document)
}
with document : Type := mkDocument {
  doc_title : res Py.str;
  doc_url : Py.str;
  doc_find : Z -> Py.str -> res (list element)
}.

(** The calls made on the driver, as they are traced. *)
Inductive call : Type :=
| Get (url : Py.str)
| Title
| Find_element (selector : Py.str)
| Find_elements (selector : Py.str)
| Clear
| Send_keys (keys : Py.str)
| Execute_script (script : Py.str).

Inductive level : Type := INFO | WARNING | ERROR.

(** The state the script runs in.  [clock] counts milliseconds; [web] is what
    [driver.get] finds at a URL; [entropy] is the random source, of which
    [drawn] values have been used; [calls] traces the driver calls with the
    time of each; [log] is the output of [logging], [stdout] of [print];
    [alerts] lists the CAPTCHA alerts handed to the mailer. *)
Record world : Type := mkWorld {
  clock : Z;
  page : document;
  web : Py.str -> res document;
  entropy : nat -> Z;
  drawn : nat;
  calls : list (Z * call);
  log : list (level * Py.str);
  stdout : list Py.str;
  alerts : list Py.str
}.

Definition set_clock (t : Z) (w : world) : world :=
  mkWorld t (page w) (web w) (entropy w) (drawn w) (calls w) (log w)
          (stdout w) (alerts w).

Definition set_page (d : document) (w : world) : world :=
  mkWorld (clock w) d (web w) (entropy w) (drawn w) (calls w) (log w)
          (stdout w) (alerts w).

Definition set_drawn (n : nat) (w : world) : world :=
  mkWorld (clock w) (page w) (web w) (entropy w) n (calls w) (log w)
          (stdout w) (alerts w).

Definition traced (c : call) (w : world) : world :=
  mkWorld (clock w) (page w) (web w) (entropy w) (drawn w)
          (calls w ++ [(clock w, c)]) (log w) (stdout w) (alerts w).

Definition logged (l : level) (msg : Py.str) (w : world) : world :=
  mkWorld (clock w) (page w) (web w) (entropy w) (drawn w) (calls w)
          (log w ++ [(l, msg)]) (stdout w) (alerts w).

Definition printed (msg : Py.str) (w : world) : world :=
  mkWorld (clock w) (page w) (web w) (entropy w) (drawn w) (calls w) (log w)
          (stdout w ++ [msg]) (alerts w).

Definition alerted (keyword : Py.str) (w : world) : world :=
  mkWorld (clock w) (page w) (web w) (entropy w) (drawn w) (calls w) (log w)
          (stdout w) (alerts w ++ [keyword]).

(** *** Programs *)

Definition M (A : Type) : Type := world -> res A * world.

Definition ret {A : Type} (a : A) : M A := fun w => (inr a, w).

Definition raise {A : Type} (e : exn) : M A := fun w => (inl e, w).

Definition bind {A B : Type} (m : M A) (k : A -> M B) : M B :=
  fun w =>
    match m w with
    | (inr a, w') => k a w'
    | (inl e, w') => (inl e, w')
    end.

(** [try: m  except Exception as e: handler e] *)
Definition try_except {A : Type} (m : M A) (handler : exn -> M A) : M A :=
  fun w =>
    match m w with
    | (inr a, w') => (inr a, w')
    | (inl e, w') => handler e w'
    end.

Definition lift {A : Type} (r : res A) : M A := fun w => (r, w).

Definition effect (f : world -> world) : M unit := fun w => (inr tt, f w).

End Selenium.

Import Selenium.

Notation "x <- m ;; k" := (bind m (fun x => k))
  (at level 61, m at next level, right associativity).
Notation "m ;; k" := (bind m (fun _ => k))
  (at level 61, right associativity).

Module Driver.

(** [logging.info], [logging.warning], [logging.error], [print]. *)
Definition logging_info (msg : Py.str) : M unit := effect (logged INFO msg).
Definition logging_warning (msg : Py.str) : M unit := effect (logged WARNING msg).
Definition logging_error (msg : Py.str) : M unit := effect (logged ERROR msg).
Definition print (msg : Py.str) : M unit := effect (printed msg).

(** [time.time()] and [time.sleep(d)]. *)
Definition time_time : M Z := fun w => (inr (clock w), w).

Definition time_sleep (d : Z) : M unit :=
  if d <? 0 then raise ValueError
  else effect (fun w => set_clock (clock w + d) w).

(** [random.uniform(lo, hi)], a value between [lo] and [hi], and
    [random.random()], here in thousandths: a value from 0 to 999. *)
Definition random_uniform (lo hi : Z) : M Z :=
  fun w =>
    (inr (lo + entropy w (drawn w) mod (hi - lo + 1)),
     set_drawn (S (drawn w)) w).

Definition random_random : M Z :=
  fun w => (inr (entropy w (drawn w) mod 1000), set_drawn (S (drawn w)) w).

(** [driver.get(url)] *)
Definition get (url : Py.str) : M unit :=
  fun w =>
    match web w url with
    | inr d => (inr tt, set_page d (traced (Get url) w))
    | inl e => (inl e, traced (Get url) w)
    end.

(** [driver.title] *)
Definition title : M Py.str :=
  fun w => (doc_title (page w), traced Title w).

(** [driver.find_elements(By.CSS_SELECTOR, selector)] *)
Definition find_elements (selector : Py.str) : M (list element) :=
  fun w => (doc_find (page w) (clock w) selector, traced (Find_elements selector) w).

(** [driver.find_element(By.CSS_SELECTOR, selector)]: the first match, or
    [NoSuchElementException]. *)
Definition find_element (selector : Py.str) : M element :=
  fun w =>
    (match doc_find (page w) (clock w) selector with
     | inl e => inl e
     | inr [] => inl NoSuchElementException
     | inr (e :: _) => inr e
     end, traced (Find_element selector) w).

(** [element.find_elements(By.CSS_SELECTOR, selector)] and
    [element.find_element(By.CSS_SELECTOR, selector)], the latter raising
    [NoSuchElementException] when nothing matches. *)
Definition find_elements_in (e : element) (selector : Py.str) : list element :=
  el_find e selector.

Definition find_element_in (e : element) (selector : Py.str) : res element :=
  match el_find e selector with
  | [] => inl NoSuchElementException
  | x :: _ => inr x
  end.

(** [element.text] and [element.get_attribute(name)]. *)
Definition text (e : element) : Py.str := el_text e.

Definition get_attribute (e : element) (name : Py.str) : option Py.str :=
  el_attribute e name.

(** An interaction that may load another document. *)
Definition interact (c : call) (r : res (option document)) : M unit :=
  fun w =>
    match r with
    | inl e => (inl e, traced c w)
    | inr None => (inr tt, traced c w)
    | inr (Some d) => (inr tt, set_page d (traced c w))
    end.

(** [element.clear()], [element.send_keys(keys)] and
    [driver.execute_script("arguments[0].click();", element)]. *)
Definition clear (e : element) : M unit :=
  fun w => (el_clear e, traced Clear w).

Definition send_keys (e : element) (keys : Py.str) : M unit :=
  interact (Send_keys keys) (el_send_keys e keys).

Definition execute_script_click (e : element) : M unit :=
  interact (Execute_script (U "arguments[0].click();")) (el_click e).

(** [WebDriverWait(driver, timeout).until(EC.presence_of_element_located(
    (By.CSS_SELECTOR, selector)))]: the element is looked up every 500 ms;
    a missing element is ignored until the time is up, which raises
    [TimeoutException].  [polls] is the number of further lookups. *)
Fixpoint until_presence (polls : nat) (selector : Py.str) : M element :=
  try_except (find_element selector)
    (fun e =>
       match e with
       | NoSuchElementException =>
           time_sleep 500 ;;
           match polls with
           | O => raise TimeoutException
           | S polls' => until_presence polls' selector
           end
       | _ => raise e
       end).

Definition wait_presence (timeout : Z) (selector : Py.str) : M element :=
  until_presence (Z.to_nat (timeout / 500)) selector.

End Driver.

Import Driver.

Section Automator.

(** The Unicode table of decimal digits, read by [re] and [int]. *)
Variable unicode_decimal : N -> option Z.

(** ** page_optimizer.py *)

Definition DELETION_SELECTOR : Py.str := U "span.title-corrections".
Definition PRODUCT_COUNT_SELECTOR : Py.str := U "span.title-count".
Definition SEO_CONTAINER_SELECTOR : Py.str := U "div.index-seoContainer".
Definition META_DESCRIPTION_SELECTOR : Py.str := U "meta[name=" ++ [34%N] ++ U "description" ++ [34%N] ++ U "]".

(** The placeholder glyph looked for in the meta description, U+272F. *)
Definition PLACEHOLDER_GLYPH : Py.str := [10031%N].

Definition check_for_deletion : M bool :=
  try_except
    (found <- find_elements DELETION_SELECTOR ;;
     if Py.truthy found
     then logging_warning
            (U "DELETION CHECK: Found 'no results' indicator. Keyword should be deleted.") ;;
          ret true
     else ret false)
    (fun e =>
       logging_error (U "Error during deletion check: " ++ str_of_exn e) ;;
       ret false).

(** [x or ""] for an optional string. *)
Definition or_empty (x : option Py.str) : Py.str :=
  match x with
  | Some c => if Py.truthy c then c else []
  | None => []
  end.

(** The inner [try] of [check_for_tm_optimization]: the content of the meta
    description, or [None] when the tag is missing and the function returns
    [True]. *)
Definition meta_description : M (option Py.str) :=
  try_except
    (meta_desc_element <- find_element META_DESCRIPTION_SELECTOR ;;
     ret (Some (or_empty (get_attribute meta_desc_element (U "content")))))
    (fun e =>
       match e with
       | NoSuchElementException =>
           logging_warning (U "T&M CHECK: <meta name='description'> tag is missing.") ;;
           ret None
       | _ => raise e
       end).

Definition check_for_tm_optimization : M bool :=
  try_except
    (title <- Driver.title ;;
     if negb (Py.truthy title)
     then logging_warning (U "T&M CHECK: Page <title> is missing.") ;;
          ret true
     else
       meta <- meta_description ;;
       match meta with
       | None => ret true
       | Some meta_desc =>
           if Py.contains PLACEHOLDER_GLYPH meta_desc
           then logging_warning
                  (U "T&M CHECK: Found '" ++ PLACEHOLDER_GLYPH
                     ++ U "' character in meta description.") ;;
                ret true
           else
             let title_len := Py.len title in
             let meta_len := Py.len meta_desc in
             if negb ((45 <=? title_len) && (title_len <=? 70))
             then logging_warning
                    (U "T&M CHECK: Title length (" ++ Py.str_of_int title_len
                       ++ U ") is outside the 45-70 character range.") ;;
                  ret true
             else if negb ((145 <=? meta_len) && (meta_len <=? 165))
             then logging_warning
                    (U "T&M CHECK: Meta description length ("
                       ++ Py.str_of_int meta_len
                       ++ U ") is outside the 145-165 character range.") ;;
                  ret true
             else ret false
       end)
    (fun e =>
       logging_error (U "Error during T&M optimization check: " ++ str_of_exn e) ;;
       ret false).

Definition is_product_count_sufficient : M bool :=
  try_except
    (count_element <- find_element PRODUCT_COUNT_SELECTOR ;;
     let count_text := text count_element in
     match Py.re_search_digits unicode_decimal (Py.replace 44%N [] count_text) with
     | Some digits =>
         let product_count := Py.int unicode_decimal digits in
         logging_info (U "PRODUCT COUNT CHECK: Found " ++ Py.str_of_int product_count
                         ++ U " items.") ;;
         if product_count <? 13
         then logging_warning
                (U "Product count is less than 13. Stopping analysis for this page.") ;;
              ret false
         else ret true
     | None =>
         logging_warning (U "PRODUCT COUNT CHECK: Could not parse number from count text.") ;;
         ret false
     end)
    (fun e =>
       match e with
       | NoSuchElementException =>
           logging_warning (U "PRODUCT COUNT CHECK: Product count element not found.") ;;
           ret false
       | _ =>
           logging_error (U "Error during product count check: " ++ str_of_exn e) ;;
           ret false
       end).

Definition check_for_content_optimization : M bool :=
  try_except
    (seo_container <- find_element SEO_CONTAINER_SELECTOR ;;
     let content_text := text seo_container in
     let word_count := Z.of_nat (List.length (Py.split content_text)) in
     logging_info (U "CONTENT CHECK: Found SEO container with "
                     ++ Py.str_of_int word_count ++ U " words.") ;;
     if word_count <? 250
     then logging_warning (U "CONTENT CHECK: Word count is less than 250.") ;;
          ret true
     else ret false)
    (fun e =>
       match e with
       | NoSuchElementException =>
           logging_warning (U "CONTENT CHECK: SEO content container not found.") ;;
           ret true
       | _ =>
           logging_error (U "Error during content optimization check: " ++ str_of_exn e) ;;
           ret false
       end).

(** The dictionary [analyze_myntra_page] returns, with its two keys. *)
Record analysis : Type := mkAnalysis { status : Py.str; value : Py.str }.

Definition analyze_myntra_page (keyword start_url : Py.str) : M analysis :=
  logging_info (U "--- Starting On-Page Analysis for '" ++ keyword ++ U "' ---") ;;
  deletion <- check_for_deletion ;;
  if deletion then ret (mkAnalysis (U "Deletion") (U "Yes"))
  else
    tm <- check_for_tm_optimization ;;
    if tm then ret (mkAnalysis (U "T&M") (U "Yes"))
    else
      sufficient <- is_product_count_sufficient ;;
      if negb sufficient
      then ret (mkAnalysis (U "Low Product Count")
                           (U "Analysis stopped due to < 13 products."))
      else
        content <- check_for_content_optimization ;;
        if content then ret (mkAnalysis (U "Content") (U "Yes"))
        else
          logging_info (U "All on-page checks passed. Page is considered optimized.") ;;
          ret (mkAnalysis (U "Optimized") (U "All checks passed")).

(** ** google_rank_finder.py *)

(** The selectors of [serp_selectors] and the settings of [config], two
    modules the rank finder imports.  The two CAPTCHA settings are in
    milliseconds of the clock; the interval between two checks is positive. *)
Variable RESULT_CONTAINER LINK_CONTAINER NEXT_PAGE_BUTTON : Py.str.
Variable SEARCH_URL : Py.str.
Variable CAPTCHA_WAIT_TIMEOUT : Z.
Variable CAPTCHA_CHECK_INTERVAL : positive.

(** [perform_random_detour(driver, target_url)] wraps all it does on the
    browser in [try ... except Exception], so its caller sees it change the
    session and return. *)
Variable perform_random_detour : Py.str -> world -> world.

Definition MAX_PAGES_TO_SCRAPE : Z := 1.

(** In thousandths, as [random_random]. *)
Definition DETOUR_PROBABILITY : Z := 500.

Definition SEARCH_INPUT_SELECTOR : Py.str := U "[name='q']".
Definition RECAPTCHA_SELECTOR : Py.str :=
  U "iframe[title=" ++ [34%N] ++ U "reCAPTCHA" ++ [34%N] ++ U "]".

(** [Keys.RETURN] *)
Definition RETURN : Py.str := [57350%N].

(** [DELAY_CONFIG], in milliseconds. *)
Inductive delay : Type :=
| typing | after_page_load | serp_read | before_next_page | detour_view.

Definition DELAY_CONFIG (d : delay) : Z * Z :=
  match d with
  | typing => (90, 220)
  | after_page_load => (2500, 5000)
  | serp_read => (5000, 8500)
  | before_next_page => (2000, 4000)
  | detour_view => (5000, 9000)
  end.

(** [time.sleep(random.uniform(DELAY_CONFIG[d]["min"], DELAY_CONFIG[d]["max"]))] *)
Definition sleep_for (d : delay) : M unit :=
  t <- random_uniform (fst (DELAY_CONFIG d)) (snd (DELAY_CONFIG d)) ;;
  time_sleep t.

(** [_send_captcha_alert(keyword)] hands the alert to the mailer of the main
    script and catches whatever that raises. *)
Definition _send_captcha_alert (keyword : Py.str) : M unit :=
  effect (alerted keyword).

(** A program that may also fail to come to an end: [None]. *)
Definition MO (A : Type) : Type := world -> option (res A * world).

Definition total {A : Type} (m : M A) : MO A := fun w => Some (m w).

Definition bindo {A B : Type} (m : MO A) (k : A -> MO B) : MO B :=
  fun w =>
    match m w with
    | None => None
    | Some (inl e, w') => Some (inl e, w')
    | Some (inr a, w') => k a w'
    end.

(** What [handle_captcha] does the first time it finds the CAPTCHA. *)
Definition captcha_notice (keyword : Py.str) : M unit :=
  print ([10%N] ++ repeat 61%N 60) ;;
  print (U "ACTION REQUIRED: Please solve the CAPTCHA in the browser.") ;;
  print (U "The script will wait for up to "
           ++ Py.str_of_int (CAPTCHA_WAIT_TIMEOUT / 60000) ++ U " minutes.") ;;
  print (U "It will automatically resume once the CAPTCHA is solved.") ;;
  print (repeat 61%N 60 ++ [10%N]) ;;
  _send_captcha_alert keyword.

(** The [while] loop of [handle_captcha]; [fuel] bounds its iterations. *)
Fixpoint captcha_loop (fuel : nat) (keyword : Py.str) (start_time : Z)
    (alert_sent : bool) : MO bool :=
  match fuel with
  | O => fun _ => None
  | S fuel' =>
      bindo (total time_time) (fun now =>
      if now - start_time <? CAPTCHA_WAIT_TIMEOUT
      then
        bindo (total (find_elements RECAPTCHA_SELECTOR)) (fun captcha_elements =>
        if negb (Py.truthy captcha_elements)
        then total (logging_info (U "CAPTCHA solved! Resuming script.") ;;
                    ret true)
        else
          bindo (total ((if alert_sent then ret tt else captcha_notice keyword) ;;
                        time_sleep (Z.pos CAPTCHA_CHECK_INTERVAL) ;;
                        print (U ".")))
                (fun _ => captcha_loop fuel' keyword start_time true))
      else
        total (logging_error
                 (U "CAPTCHA Timeout! Waited for "
                    ++ Py.str_of_int (CAPTCHA_WAIT_TIMEOUT / 1000)
                    ++ U " seconds but CAPTCHA was not solved.") ;;
               logging_error
                 (U "Aborting keyword '" ++ keyword
                    ++ U "' and moving to the next one.") ;;
               ret false))
  end.

(** Iterations enough for the loop to see the time run out. *)
Definition captcha_fuel : nat :=
  S (S (Z.to_nat (CAPTCHA_WAIT_TIMEOUT / Z.pos CAPTCHA_CHECK_INTERVAL))).

Definition handle_captcha (keyword : Py.str) : MO bool :=
  bindo (total time_time) (fun start_time =>
  bindo (total (logging_warning
                  (U "!!! CAPTCHA DETECTED !!! Pausing script and waiting for manual intervention.")))
        (fun _ => captcha_loop captcha_fuel keyword start_time false)).

(** [enumerate(l, start=start)] *)
Fixpoint enumerate {A : Type} (start : Z) (l : list A) : list (Z * A) :=
  match l with
  | [] => []
  | x :: l' => (start, x) :: enumerate (start + 1) l'
  end.

(** The body of the first loop of [_find_rank_on_current_page]: whether the
    block is appended to [clean_organic_results]. *)
Definition is_clean_organic (block : element) : res bool :=
  if Py.truthy (find_elements_in block (U "[data-text-ad]")) then inr false
  else
    match find_element_in block (U "h3") with
    | inl e => inl e
    | inr h3_element =>
        if negb (Py.truthy (Py.strip (text h3_element))) then inr false
        else inr true
    end.

Fixpoint clean_organic_results (all_potential_blocks : list element)
    : res (list element) :=
  match all_potential_blocks with
  | [] => inr []
  | block :: blocks =>
      match is_clean_organic block with
      | inl NoSuchElementException =>
          clean_organic_results blocks
      | inl e => inl e
      | inr keep =>
          match clean_organic_results blocks with
          | inl e => inl e
          | inr clean => inr (if keep then block :: clean else clean)
          end
      end
  end.

(** The body of the second loop: the URL of the block when it matches. *)
Definition matching_url (target_url : Py.str) (organic_block : element)
    : res (option Py.str) :=
  match find_element_in organic_block LINK_CONTAINER with
  | inl e => inl e
  | inr link_element =>
      match get_attribute link_element (U "href") with
      | Some actual_url =>
          if Py.truthy actual_url && Py.contains target_url actual_url
          then inr (Some actual_url)
          else inr None
      | None => inr None
      end
  end.

Fixpoint first_match (target_url : Py.str) (ranked : list (Z * element))
    : res (option (Z * Py.str)) :=
  match ranked with
  | [] => inr None
  | (rank, organic_block) :: rest =>
      match matching_url target_url organic_block with
      | inl NoSuchElementException => first_match target_url rest
      | inl e => inl e
      | inr (Some actual_url) => inr (Some (rank, actual_url))
      | inr None => first_match target_url rest
      end
  end.

Definition _find_rank_on_current_page (target_url : Py.str) (rank_offset : Z)
    : M (option Z * option Py.str) :=
  try_except
    (_ <- wait_presence 5000 RESULT_CONTAINER ;;
     all_potential_blocks <- find_elements RESULT_CONTAINER ;;
     clean <- lift (clean_organic_results all_potential_blocks) ;;
     found <- lift (first_match target_url (enumerate (1 + rank_offset) clean)) ;;
     match found with
     | Some (rank, actual_url) =>
         logging_info (U "SUCCESS: Found a match for '" ++ target_url ++ U "'") ;;
         ret (Some rank, Some actual_url)
     | None => ret (None, None)
     end)
    (fun e =>
       logging_error (U "An error occurred while scraping the current page: "
                        ++ str_of_exn e) ;;
       ret (None, None)).

(** [range(lo, hi)] *)
Definition range (lo hi : Z) : list Z :=
  map (fun i => lo + Z.of_nat i) (seq 0 (Z.to_nat (hi - lo))).

(** The [for char in keyword] loop of [find_google_rank]. *)
Fixpoint type_keyword (search_box : element) (keyword : Py.str) : M unit :=
  match keyword with
  | [] => ret tt
  | char :: rest =>
      send_keys search_box [char] ;;
      sleep_for typing ;;
      type_keyword search_box rest
  end.

(** The [try] block of the page loop: find the next-page control and follow
    it.  [true] when the loop goes on, [false] on [break]. *)
Definition go_to_next_page : M bool :=
  try_except
    (next_button <- find_element NEXT_PAGE_BUTTON ;;
     logging_info (U "Moving to next page...") ;;
     sleep_for before_next_page ;;
     execute_script_click next_button ;;
     ret true)
    (fun e =>
       match e with
       | NoSuchElementException =>
           logging_info (U "No 'Next' button found. Reached the end of results.") ;;
           ret false
       | _ => raise e
       end).

(** The [for page_num in ...] loop of [find_google_rank]: [Some] is the
    pair returned from inside the loop, [None] is leaving the loop. *)
Fixpoint scrape_pages (keyword target_url : Py.str) (pages : list Z)
    (current_rank_offset : Z) : MO (option (Py.str * Py.str)) :=
  match pages with
  | [] => total (ret None)
  | page_num :: pages' =>
      bindo (total (logging_info
                      (U "--- Scraping Page " ++ Py.str_of_int page_num
                         ++ U " for '" ++ keyword
                         ++ U "' (simulating reading) ---") ;;
                    sleep_for serp_read ;;
                    find_elements RECAPTCHA_SELECTOR))
            (fun captcha =>
      bindo (if Py.truthy captcha then handle_captcha keyword
             else total (ret true))
            (fun solved =>
      if negb solved then total (ret None)
      else
        bindo (total (_find_rank_on_current_page target_url current_rank_offset))
              (fun on_page =>
        match on_page with
        | (Some rank_on_page, Some url_on_page) =>
            total (logging_info
                     (U "Found at Rank " ++ Py.str_of_int rank_on_page
                        ++ U " on page " ++ Py.str_of_int page_num
                        ++ U ". URL: " ++ url_on_page) ;;
                   ret (Some (Py.str_of_int rank_on_page, url_on_page)))
        | _ =>
            bindo (total go_to_next_page) (fun more =>
            if more
            then scrape_pages keyword target_url pages' (current_rank_offset + 10)
            else total (ret None))
        end)))
  end.

(** The first part of the [try] block of [find_google_rank]: the keyword is
    typed into the search box and submitted, and a detour may follow. *)
Definition submit_query (keyword target_url : Py.str) : M unit :=
  get SEARCH_URL ;;
  sleep_for after_page_load ;;
  search_box <- wait_presence 10000 SEARCH_INPUT_SELECTOR ;;
  clear search_box ;;
  type_keyword search_box keyword ;;
  send_keys search_box RETURN ;;
  sleep_for after_page_load ;;
  r <- random_random ;;
  if r <? DETOUR_PROBABILITY
  then effect (perform_random_detour target_url)
  else ret tt.

(** The [try] block of [find_google_rank]. *)
Definition search (keyword target_url : Py.str) : MO (option (Py.str * Py.str)) :=
  bindo (total (submit_query keyword target_url))
        (fun _ =>
           scrape_pages keyword target_url
                        (range 1 (MAX_PAGES_TO_SCRAPE + 1)) 0).

Definition NOT_FOUND : Py.str * Py.str := (U "Not Found", []).

(** What follows the [try] statement of [find_google_rank]. *)
Definition not_found (keyword : Py.str) : M (Py.str * Py.str) :=
  logging_info (U "Finished scraping for '" ++ keyword
                  ++ U "'. Target URL not found.") ;;
  ret NOT_FOUND.

Definition find_google_rank (keyword target_url : Py.str) : MO (Py.str * Py.str) :=
  fun w =>
    match search keyword target_url w with
    | None => None
    | Some (inr (Some found), w') => Some (inr found, w')
    | Some (inr None, w') => Some (not_found keyword w')
    | Some (inl TimeoutException, w') =>
        Some ((logging_error (U "Could not find the search box for keyword '"
                                ++ keyword ++ U "'. Skipping.") ;;
               not_found keyword) w')
    | Some (inl e, w') =>
        Some ((logging_error
                 (U "An unexpected error occurred during Google search for '"
                    ++ keyword ++ U "': " ++ str_of_exn e) ;;
               not_found keyword) w')
    end.

(** ** Properties of the audit funnel *)


(** Two states of the session that show the same document at the same time. *)
Definition same_view (w w' : world) : Prop :=
  page w' = page w /\ clock w' = clock w.

Ltac run :=
  unfold try_except, bind, ret, raise, lift, effect,
    logging_info, logging_warning, logging_error, Driver.title,
    find_elements, find_element in *;
  cbn [fst snd page clock calls log traced logged] in *.

Lemma check_for_deletion_run (w : world) :
  check_for_deletion w =
  match doc_find (page w) (clock w) DELETION_SELECTOR with
  | inr (_ :: _) =>
      (inr true,
       logged WARNING
         (U "DELETION CHECK: Found 'no results' indicator. Keyword should be deleted.")
         (traced (Find_elements DELETION_SELECTOR) w))
  | inr [] => (inr false, traced (Find_elements DELETION_SELECTOR) w)
  | inl e =>
      (inr false,
       logged ERROR (U "Error during deletion check: " ++ str_of_exn e)
         (traced (Find_elements DELETION_SELECTOR) w))
  end.
Proof.
  unfold check_for_deletion. run.
  destruct (doc_find (page w) (clock w) DELETION_SELECTOR) as [e | [ | x l]];
    reflexivity.
Qed.

Ltac break_match :=
  match goal with
  | |- context [match ?x with _ => _ end] =>
      lazymatch x with
      | context [match _ with _ => _ end] => fail
      | _ => destruct x eqn:?
      end
  | |- context [if ?x then _ else _] =>
      lazymatch x with
      | context [if _ then _ else _] => fail
      | context [match _ with _ => _ end] => fail
      | _ => destruct x eqn:?
      end
  end.

Ltac run_check :=
  unfold check_for_deletion, check_for_tm_optimization, meta_description,
    is_product_count_sufficient, check_for_content_optimization;
  run; repeat (break_match; run).

(** Each check returns a verdict, raises nothing, leaves the document and
    the clock as they were, and makes these calls on the driver. *)
Lemma check_for_deletion_total (w : world) :
  exists b w',
    check_for_deletion w = (inr b, w') /\ same_view w w' /\
    calls w' = calls w ++ [(clock w, Find_elements DELETION_SELECTOR)].
Proof. unfold same_view. run_check; eauto 6. Qed.

Lemma check_for_tm_optimization_total (w : world) :
  exists b w' made,
    check_for_tm_optimization w = (inr b, w') /\ same_view w w' /\
    calls w' = calls w ++ made /\
    Forall (fun c => snd c = Title
                     \/ snd c = Find_element META_DESCRIPTION_SELECTOR) made.
Proof.
  unfold same_view. run_check;
    do 3 eexists; (split; [reflexivity | ]);
    (split; [split; reflexivity | ]);
    cbn [calls traced logged]; rewrite <- ?app_assoc;
    (split; [reflexivity | ]);
    repeat (apply Forall_cons || apply Forall_nil); cbn [snd]; auto.
Qed.

Lemma is_product_count_sufficient_total (w : world) :
  exists b w',
    is_product_count_sufficient w = (inr b, w') /\ same_view w w' /\
    calls w' = calls w ++ [(clock w, Find_element PRODUCT_COUNT_SELECTOR)].
Proof. unfold same_view. run_check; eauto 6. Qed.

Lemma check_for_content_optimization_total (w : world) :
  exists b w',
    check_for_content_optimization w = (inr b, w') /\ same_view w w' /\
    calls w' = calls w ++ [(clock w, Find_element SEO_CONTAINER_SELECTOR)].
Proof. unfold same_view. run_check; eauto 6. Qed.

(** The verdict of a check is read off the document at the time of the
    check: the trace and the log do not bear on it. *)
Ltac same_verdict H :=
  destruct H as [Hpage Hclock];
  unfold check_for_deletion, check_for_tm_optimization, meta_description,
    is_product_count_sufficient, check_for_content_optimization;
  run; rewrite ?Hpage, ?Hclock;
  repeat (break_match; run; rewrite ?Hpage, ?Hclock in * ); congruence.

Lemma check_for_tm_optimization_view (w w' : world) :
  same_view w w' ->
  fst (check_for_tm_optimization w') = fst (check_for_tm_optimization w).
Proof. intros H. same_verdict H. Qed.

Lemma is_product_count_sufficient_view (w w' : world) :
  same_view w w' ->
  fst (is_product_count_sufficient w') = fst (is_product_count_sufficient w).
Proof. intros H. same_verdict H. Qed.

Lemma check_for_content_optimization_view (w w' : world) :
  same_view w w' ->
  fst (check_for_content_optimization w') = fst (check_for_content_optimization w).
Proof. intros H. same_verdict H. Qed.

Lemma check_for_deletion_view (w w' : world) :
  same_view w w' ->
  fst (check_for_deletion w') = fst (check_for_deletion w).
Proof. intros H. same_verdict H. Qed.

Lemma same_view_trans (w1 w2 w3 : world) :
  same_view w1 w2 -> same_view w2 w3 -> same_view w1 w3.
Proof. unfold same_view. intros [] []. split; congruence. Qed.



(** C3, as the code has it.  When the no-results indicator is present the
    funnel returns status ['Deletion'] with the value ['Yes'], whatever the
    keyword is; the keyword is written to the sheet by the caller. *)
Theorem deletion_value_is_yes (keyword start_url : Py.str) (w : world)
    (x : element) (l : list element) :
  doc_find (page w) (clock w) DELETION_SELECTOR = inr (x :: l) ->
  exists w',
    analyze_myntra_page keyword start_url w
    = (inr (mkAnalysis (U "Deletion") (U "Yes")), w').
Proof.
  intros H.
  unfold analyze_myntra_page, bind, logging_info, effect, ret. cbv beta iota.
  rewrite check_for_deletion_run. cbn [page clock logged].
  rewrite H. eexists. reflexivity.
Qed.


(** An element is missing when its lookup finds nothing. *)
Definition missing (found : res (list element)) : Prop :=
  found = inr [] \/ found = inl NoSuchElementException.

(** C8, as the code has it.  An error raised by the driver inside the
    deletion check, the T&M check or the content check is logged and the check
    finds no issue; a missing meta description is a T&M issue and a missing
    content block is a content issue; in the product count check every error,
    a missing element or any other, is logged and makes the count
    insufficient. *)
Theorem check_errors (w : world) (e : exn) :
  (doc_find (page w) (clock w) DELETION_SELECTOR = inl e ->
   exists w',
     check_for_deletion w = (inr false, w') /\
     log w' = log w ++ [(ERROR, U "Error during deletion check: " ++ str_of_exn e)]) /\
  (doc_title (page w) = inl e ->
   exists w',
     check_for_tm_optimization w = (inr false, w') /\
     log w' = log w ++ [(ERROR, U "Error during T&M optimization check: "
                                  ++ str_of_exn e)]) /\
  (forall title,
     doc_title (page w) = inr title -> Py.truthy title = true ->
     (doc_find (page w) (clock w) META_DESCRIPTION_SELECTOR = inl e ->
      e <> NoSuchElementException ->
      exists w',
        check_for_tm_optimization w = (inr false, w') /\
        log w' = log w ++ [(ERROR, U "Error during T&M optimization check: "
                                     ++ str_of_exn e)]) /\
     (missing (doc_find (page w) (clock w) META_DESCRIPTION_SELECTOR) ->
      exists w',
        check_for_tm_optimization w = (inr true, w') /\
        log w' = log w ++ [(WARNING,
                            U "T&M CHECK: <meta name='description'> tag is missing.")])) /\
  (doc_find (page w) (clock w) PRODUCT_COUNT_SELECTOR = inl e ->
   e <> NoSuchElementException ->
   exists w',
     is_product_count_sufficient w = (inr false, w') /\
     log w' = log w ++ [(ERROR, U "Error during product count check: "
                                  ++ str_of_exn e)]) /\
  (missing (doc_find (page w) (clock w) PRODUCT_COUNT_SELECTOR) ->
   exists w',
     is_product_count_sufficient w = (inr false, w') /\
     log w' = log w ++ [(WARNING,
                         U "PRODUCT COUNT CHECK: Product count element not found.")]) /\
  (doc_find (page w) (clock w) SEO_CONTAINER_SELECTOR = inl e ->
   e <> NoSuchElementException ->
   exists w',
     check_for_content_optimization w = (inr false, w') /\
     log w' = log w ++ [(ERROR, U "Error during content optimization check: "
                                  ++ str_of_exn e)]) /\
  (missing (doc_find (page w) (clock w) SEO_CONTAINER_SELECTOR) ->
   exists w',
     check_for_content_optimization w = (inr true, w') /\
     log w' = log w ++ [(WARNING,
                         U "CONTENT CHECK: SEO content container not found.")]).
Proof.
  unfold missing, check_for_deletion, check_for_tm_optimization, meta_description,
    is_product_count_sufficient, check_for_content_optimization.
  run.
  repeat match goal with |- _ /\ _ => split end.
  - intros H. rewrite H. eexists. split; reflexivity.
  - intros H. rewrite H. eexists. split; reflexivity.
  - intros title Ht Htruthy. rewrite Ht. cbn [fst snd]. rewrite Htruthy.
    cbn [negb fst snd page clock traced logged]. split.
    + intros H Hne. rewrite H.
      destruct e; try congruence; eexists; split; reflexivity.
    + intros [H | H]; rewrite H; eexists; split; reflexivity.
  - intros H Hne. rewrite H.
    destruct e; try congruence; eexists; split; reflexivity.
  - intros [H | H]; rewrite H; eexists; split; reflexivity.
  - intros H Hne. rewrite H.
    destruct e; try congruence; eexists; split; reflexivity.
  - intros [H | H]; rewrite H; eexists; split; reflexivity.
Qed.

(** ** Properties of the result scanner *)

(** A block is flagged as an advertisement when it holds a [data-text-ad]
    element; its heading is the text of its first [h3]; it is organic when it
    is not flagged and its heading has text other than whitespace. *)
Definition flagged_as_ad (block : element) : bool :=
  Py.truthy (el_find block (U "[data-text-ad]")).

Definition heading (block : element) : option Py.str :=
  match el_find block (U "h3") with
  | [] => None
  | h3 :: _ => Some (el_text h3)
  end.

Definition has_heading_text (block : element) : bool :=
  match heading block with
  | Some t => Py.truthy (Py.strip t)
  | None => false
  end.

Definition organic (block : element) : bool :=
  negb (flagged_as_ad block) && has_heading_text block.

(** The URL a block links to: the [href] of its first link element, if it has
    both. *)
Definition link_url (block : element) : option Py.str :=
  match el_find block LINK_CONTAINER with
  | [] => None
  | link :: _ => el_attribute link (U "href")
  end.

Definition links_to (target_url : Py.str) (block : element) : bool :=
  match link_url block with
  | Some url => Py.contains target_url url
  | None => false
  end.

(** The pair the scanner returns for what its second loop found. *)
Definition scanned (found : res (option (Z * Py.str))) : option Z * option Py.str :=
  match found with
  | inr (Some (rank, url)) => (Some rank, Some url)
  | _ => (None, None)
  end.

(** The results page shows the blocks [blocks] for as long as it is looked at. *)
Definition shows (w : world) (blocks : list element) : Prop :=
  forall t, doc_find (page w) t RESULT_CONTAINER = inr blocks.

Lemma is_clean_organic_organic (block : element) :
  is_clean_organic block = inr (organic block)
  \/ (is_clean_organic block = inl NoSuchElementException /\ organic block = false).
Proof.
  unfold is_clean_organic, organic, flagged_as_ad, has_heading_text, heading,
    find_elements_in, find_element_in, text.
  destruct (Py.truthy (el_find block (U "[data-text-ad]"))); cbn [negb andb].
  - left. reflexivity.
  - destruct (el_find block (U "h3")) as [ | h3 rest].
    + right. split; reflexivity.
    + left. destruct (Py.truthy (Py.strip (el_text h3))); reflexivity.
Qed.

Lemma clean_organic_results_filter (blocks : list element) :
  clean_organic_results blocks = inr (filter organic blocks).
Proof.
  induction blocks as [ | block blocks IH]; [ reflexivity | ].
  cbn [clean_organic_results filter]. rewrite IH.
  destruct (is_clean_organic_organic block) as [E | [E F]]; rewrite E.
  - destruct (organic block); reflexivity.
  - rewrite F. reflexivity.
Qed.

Lemma contains_truthy (target_url url : Py.str) :
  target_url <> [] -> Py.contains target_url url = true -> Py.truthy url = true.
Proof.
  intros Hne H. destruct url as [ | c url]; [ | reflexivity ].
  destruct target_url; [ congruence | discriminate H ].
Qed.

Lemma first_match_find (target_url : Py.str) (ranked : list (Z * element)) :
  target_url <> [] ->
  first_match target_url ranked =
  inr match find (fun entry => links_to target_url (snd entry)) ranked with
      | Some (rank, block) =>
          match link_url block with
          | Some url => Some (rank, url)
          | None => None
          end
      | None => None
      end.
Proof.
  intros Hne. induction ranked as [ | [rank block] ranked IH]; [ reflexivity | ].
  cbn [first_match find snd].
  unfold matching_url, links_to, link_url, find_element_in, get_attribute.
  destruct (el_find block LINK_CONTAINER) as [ | link links] eqn:EL;
    [ exact IH | ].
  destruct (el_attribute link (U "href")) as [url | ] eqn:EA; [ | exact IH ].
  destruct (Py.contains target_url url) eqn:E.
  - rewrite (contains_truthy _ _ Hne E). cbn [andb].
    unfold link_url. rewrite EL, EA. reflexivity.
  - rewrite andb_false_r. exact IH.
Qed.

Lemma until_presence_absent (polls : nat) (selector : Py.str) (w : world) :
  (forall t, doc_find (page w) t selector = inr []) ->
  fst (until_presence polls selector w) = inl TimeoutException.
Proof.
  revert w. induction polls as [ | polls IH]; intros w H;
    cbn [until_presence]; unfold time_sleep; run; rewrite H; cbn.
  - reflexivity.
  - apply IH. intros t. cbn. apply H.
Qed.

Lemma until_presence_present (polls : nat) (selector : Py.str) (w : world)
    (e : element) (rest : list element) :
  doc_find (page w) (clock w) selector = inr (e :: rest) ->
  until_presence polls selector w = (inr e, traced (Find_element selector) w).
Proof.
  intros H. destruct polls; cbn [until_presence]; run; rewrite H; reflexivity.
Qed.

Lemma find_rank_on_shown_page (w : world) (target_url : Py.str) (rank_offset : Z)
    (blocks : list element) :
  shows w blocks ->
  fst (_find_rank_on_current_page target_url rank_offset w)
  = inr (scanned (first_match target_url
                    (enumerate (1 + rank_offset) (filter organic blocks)))).
Proof.
  intros H. unfold shows in H. unfold _find_rank_on_current_page, wait_presence.
  destruct blocks as [ | block blocks].
  - unfold try_except at 1. unfold bind at 1.
    pose proof (until_presence_absent (Z.to_nat (5000 / 500)) _ w H) as E.
    destruct (until_presence _ _ w) as [r w']. cbn [fst] in E. subst r.
    reflexivity.
  - unfold try_except, bind.
    rewrite (until_presence_present _ _ _ _ _ (H (clock w))).
    unfold find_elements, lift. cbn [page clock traced].
    rewrite H, clean_organic_results_filter.
    destruct (first_match target_url _) as [e | [[rank url] | ]]; reflexivity.
Qed.

Lemma enumerate_snd {A : Type} (start : Z) (l : list A) :
  map snd (enumerate start l) = l.
Proof.
  revert start. induction l as [ | x l IH]; intros start; cbn;
    [ | rewrite IH ]; reflexivity.
Qed.

Lemma enumerate_fst {A : Type} (start : Z) (l : list A) :
  map fst (enumerate start l)
  = map (fun i => start + Z.of_nat i) (seq 0 (List.length l)).
Proof.
  revert start. induction l as [ | x l IH]; intros start; [ reflexivity | ].
  cbn [enumerate map fst List.length seq]. rewrite IH, <- seq_shift, map_map.
  f_equal; [ lia | ]. apply map_ext. intros i. lia.
Qed.

Lemma enumerate_app {A : Type} (start : Z) (l1 l2 : list A) :
  enumerate start (l1 ++ l2)
  = enumerate start l1 ++ enumerate (start + Z.of_nat (List.length l1)) l2.
Proof.
  revert start. induction l1 as [ | x l1 IH]; intros start.
  - cbn. f_equal. lia.
  - cbn [enumerate app List.length]. rewrite IH. do 3 f_equal. lia.
Qed.

Lemma enumerate_In {A : Type} (start : Z) (l : list A) (rank : Z) (x : A) :
  In (rank, x) (enumerate start l) -> In x l.
Proof.
  intros H. rewrite <- (enumerate_snd start l).
  change x with (snd (rank, x)). apply in_map. exact H.
Qed.

Lemma first_match_app (target_url : Py.str) (l1 l2 : list (Z * element)) :
  first_match target_url (l1 ++ l2)
  = match first_match target_url l1 with
    | inr None => first_match target_url l2
    | found => found
    end.
Proof.
  induction l1 as [ | [rank block] l1 IH]; [ reflexivity | ].
  cbn [app first_match].
  destruct (matching_url target_url block) as [[] | [url | ]];
    solve [ exact IH | reflexivity ].
Qed.

(** [needle in hay] is the occurrence of [needle] as a substring of [hay]. *)
Lemma startswith_prefix (p s : Py.str) :
  Py.startswith p s = true <-> exists post, s = p ++ post.
Proof.
  revert s. induction p as [ | c p IH]; intros s.
  - cbn. split; [ intros _; exists s; reflexivity | reflexivity ].
  - destruct s as [ | d s]; cbn [Py.startswith].
    + split; [ discriminate | intros [post H]; discriminate H ].
    + rewrite andb_true_iff, N.eqb_eq, IH. split.
      * intros [-> [post ->]]. exists post. reflexivity.
      * intros [post H]. injection H as -> ->. split; [ reflexivity | ].
        exists post. reflexivity.
Qed.

Lemma contains_substring (needle hay : Py.str) :
  Py.contains needle hay = true <-> exists pre post, hay = pre ++ needle ++ post.
Proof.
  induction hay as [ | c hay IH].
  - cbn [Py.contains]. rewrite orb_false_r, startswith_prefix. split.
    + intros [post H]. exists [], post. exact H.
    + intros [pre [post H]]. destruct pre; [ exists post; exact H | discriminate H ].
  - cbn [Py.contains]. rewrite orb_true_iff, startswith_prefix, IH. split.
    + intros [[post H] | [pre [post H]]].
      * exists [], post. exact H.
      * exists (c :: pre), post. rewrite H. reflexivity.
    + intros [pre [post H]]. destruct pre as [ | d pre].
      * left. exists post. exact H.
      * right. injection H as _ H. exists pre, post. exact H.
Qed.

(** C2.  On a results page the scanner keeps exactly the blocks that are
    neither flagged as advertisements nor without heading text, in document
    order, and numbers them [o+1], [o+2], ...; a block that is flagged or has
    no heading text gets no rank, and the outcome of the scan is computed
    from the numbered organic blocks alone. *)
Theorem scanner_ranks_organic_blocks (w : world) (target_url : Py.str)
    (rank_offset : Z) (blocks : list element) :
  shows w blocks ->
  let organic_blocks := filter organic blocks in
  let ranked := enumerate (1 + rank_offset) organic_blocks in
  clean_organic_results blocks = inr organic_blocks /\
  map snd ranked = organic_blocks /\
  map fst ranked
  = map (fun i => rank_offset + 1 + Z.of_nat i) (seq 0 (List.length organic_blocks)) /\
  (forall rank block,
     In (rank, block) ranked ->
     In block blocks /\ flagged_as_ad block = false /\ has_heading_text block = true) /\
  (forall block,
     flagged_as_ad block = true \/ has_heading_text block = false ->
     forall rank, ~ In (rank, block) ranked) /\
  fst (_find_rank_on_current_page target_url rank_offset w)
  = inr (scanned (first_match target_url ranked)).
Proof.
  intros H organic_blocks ranked.
  assert (Hin : forall rank block,
             In (rank, block) ranked -> In block blocks /\ organic block = true).
  { intros rank block Hr. apply enumerate_In in Hr.
    apply filter_In in Hr. exact Hr. }
  split; [ apply clean_organic_results_filter | ].
  split; [ apply enumerate_snd | ].
  split.
  { unfold ranked. rewrite enumerate_fst. apply map_ext. intros i. lia. }
  split.
  { intros rank block Hr. destruct (Hin _ _ Hr) as [Hb Ho].
    unfold organic in Ho. apply andb_prop in Ho. destruct Ho as [Ha Hh].
    apply negb_true_iff in Ha. auto. }
  split.
  { intros block Hbad rank Hr. destruct (Hin _ _ Hr) as [_ Ho].
    unfold organic in Ho. apply andb_prop in Ho. destruct Ho as [Ha Hh].
    apply negb_true_iff in Ha. destruct Hbad; congruence. }
  apply find_rank_on_shown_page. exact H.
Qed.

(** C6.  For a target that is not the empty string, the scanner returns the
    rank and the URL of the first organic entry, in document order, whose
    link URL has the target as a substring, and [(None, None)] when no
    organic entry has. *)
Theorem scanner_first_substring_match (w : world) (target_url : Py.str)
    (rank_offset : Z) (blocks : list element) :
  target_url <> [] ->
  shows w blocks ->
  match find (fun entry => links_to target_url (snd entry))
             (enumerate (1 + rank_offset) (filter organic blocks)) with
  | Some (rank, block) =>
      exists url pre post,
        link_url block = Some url /\ url = pre ++ target_url ++ post /\
        fst (_find_rank_on_current_page target_url rank_offset w)
        = inr (Some rank, Some url)
  | None =>
      fst (_find_rank_on_current_page target_url rank_offset w)
      = inr (None, None)
  end.
Proof.
  intros Hne H.
  rewrite (find_rank_on_shown_page _ _ _ _ H), (first_match_find _ _ Hne).
  destruct (find _ _) as [[rank block] | ] eqn:F; [ | reflexivity ].
  apply find_some in F. destruct F as [_ F]. cbn [snd] in F.
  unfold links_to in F.
  destruct (link_url block) as [url | ]; [ | discriminate F ].
  apply contains_substring in F. destruct F as [pre [post F]].
  exists url, pre, post. repeat split. exact F.
Qed.

(** C10.  An organic block whose link element is missing, or whose [href] is
    null, keeps its rank: the blocks before it are numbered from [o+1], it
    takes the next number, and the blocks after it are numbered from the
    number after that, so that a match among them is reported with the rank
    of its position in the organic list. *)
Theorem link_failure_keeps_rank (w : world) (target_url : Py.str)
    (rank_offset : Z) (blocks before after : list element) (block : element) :
  shows w blocks ->
  filter organic blocks = before ++ block :: after ->
  (el_find block LINK_CONTAINER = []
   \/ exists link links,
        el_find block LINK_CONTAINER = link :: links
        /\ el_attribute link (U "href") = None) ->
  let rank := rank_offset + 1 + Z.of_nat (List.length before) in
  enumerate (1 + rank_offset) (before ++ block :: after)
  = enumerate (1 + rank_offset) before
    ++ (rank, block) :: enumerate (rank + 1) after /\
  fst (_find_rank_on_current_page target_url rank_offset w)
  = inr (scanned
           match first_match target_url (enumerate (1 + rank_offset) before) with
           | inr None => first_match target_url (enumerate (rank + 1) after)
           | found => found
           end).
Proof.
  intros H Hf Hlink rank.
  assert (E : enumerate (1 + rank_offset) (before ++ block :: after)
              = enumerate (1 + rank_offset) before
                ++ (rank, block) :: enumerate (rank + 1) after).
  { rewrite enumerate_app. cbn [enumerate]. unfold rank.
    f_equal. f_equal; f_equal; lia. }
  split; [ exact E | ].
  rewrite (find_rank_on_shown_page _ _ _ _ H), Hf, E, first_match_app.
  cbn [first_match].
  assert (M : matching_url target_url block = inl NoSuchElementException
              \/ matching_url target_url block = inr None).
  { unfold matching_url, find_element_in, get_attribute.
    destruct Hlink as [-> | (link & links & -> & ->)]; auto. }
  destruct M as [-> | ->]; reflexivity.
Qed.

(** ** Properties of the CAPTCHA gate *)

(** The state after one unsuccessful check: the notice, once, the pause and
    the progress dot. *)
Definition after_check (alert_sent : bool) (keyword : Py.str) (w : world) : world :=
  snd (((if alert_sent then ret tt else captcha_notice keyword) ;;
        time_sleep (Z.pos CAPTCHA_CHECK_INTERVAL) ;;
        print (U ".")) w).

(** The check of the CAPTCHA marker made at time [t]. *)
Definition check_at (t : Z) : Z * call := (t, Find_elements RECAPTCHA_SELECTOR).

(** The checks made every [CAPTCHA_CHECK_INTERVAL] from [start], [n] of them. *)
Definition checks_from (start : Z) (n : nat) : list (Z * call) :=
  map (fun k => check_at (start + Z.of_nat k * Z.pos CAPTCHA_CHECK_INTERVAL))
      (seq 0 n).

Lemma after_check_view (alert_sent : bool) (keyword : Py.str) (w : world) :
  clock (after_check alert_sent keyword w) = clock w + Z.pos CAPTCHA_CHECK_INTERVAL
  /\ page (after_check alert_sent keyword w) = page w
  /\ calls (after_check alert_sent keyword w) = calls w
  /\ log (after_check alert_sent keyword w) = log w.
Proof. destruct alert_sent; repeat split; reflexivity. Qed.

Lemma captcha_loop_unfold (fuel : nat) (keyword : Py.str) (start_time : Z)
    (alert_sent : bool) (w : world) :
  captcha_loop (S fuel) keyword start_time alert_sent w =
  if clock w - start_time <? CAPTCHA_WAIT_TIMEOUT
  then
    match doc_find (page w) (clock w) RECAPTCHA_SELECTOR with
    | inl e => Some (inl e, traced (Find_elements RECAPTCHA_SELECTOR) w)
    | inr [] =>
        Some (inr true,
              logged INFO (U "CAPTCHA solved! Resuming script.")
                (traced (Find_elements RECAPTCHA_SELECTOR) w))
    | inr (_ :: _) =>
        captcha_loop fuel keyword start_time true
          (after_check alert_sent keyword (traced (Find_elements RECAPTCHA_SELECTOR) w))
    end
  else
    Some (inr false,
          logged ERROR (U "Aborting keyword '" ++ keyword
                          ++ U "' and moving to the next one.")
            (logged ERROR
               (U "CAPTCHA Timeout! Waited for "
                  ++ Py.str_of_int (CAPTCHA_WAIT_TIMEOUT / 1000)
                  ++ U " seconds but CAPTCHA was not solved.") w)).
Proof.
  cbn [captcha_loop]. unfold bindo at 1. unfold total at 1, time_time.
  destruct (clock w - start_time <? CAPTCHA_WAIT_TIMEOUT); [ | reflexivity ].
  unfold bindo at 1. unfold total at 1, find_elements.
  destruct (doc_find (page w) (clock w) RECAPTCHA_SELECTOR) as [e | [ | x l]];
    try reflexivity.
  cbn [Py.truthy negb]. unfold bindo, total, after_check.
  destruct alert_sent; reflexivity.
Qed.

(** The CAPTCHA marker as the document shows it at time [t]. *)
Definition marker_present (d : document) (t : Z) : Prop :=
  exists x l, doc_find d t RECAPTCHA_SELECTOR = inr (x :: l).

Definition marker_absent (d : document) (t : Z) : Prop :=
  doc_find d t RECAPTCHA_SELECTOR = inr [].

Lemma checks_from_S (start : Z) (n : nat) :
  checks_from start (S n)
  = check_at start :: checks_from (start + Z.pos CAPTCHA_CHECK_INTERVAL) n.
Proof.
  unfold checks_from. cbn [seq map]. rewrite <- seq_shift, map_map.
  f_equal; [ f_equal; lia | ].
  apply map_ext. intros k. f_equal. lia.
Qed.

Lemma checks_from_last (start : Z) (n : nat) :
  checks_from start (S n)
  = checks_from start n
    ++ [check_at (start + Z.of_nat n * Z.pos CAPTCHA_CHECK_INTERVAL)].
Proof. unfold checks_from. rewrite seq_S, map_app. reflexivity. Qed.

Lemma captcha_loop_resolved (keyword : Py.str) (start_time : Z) (n : nat) :
  forall (fuel : nat) (alert_sent : bool) (w : world),
    (n < fuel)%nat ->
    clock w - start_time + Z.of_nat n * Z.pos CAPTCHA_CHECK_INTERVAL
    < CAPTCHA_WAIT_TIMEOUT ->
    (forall k, (k < n)%nat ->
       marker_present (page w) (clock w + Z.of_nat k * Z.pos CAPTCHA_CHECK_INTERVAL)) ->
    marker_absent (page w) (clock w + Z.of_nat n * Z.pos CAPTCHA_CHECK_INTERVAL) ->
    exists w',
      captcha_loop fuel keyword start_time alert_sent w = Some (inr true, w')
      /\ calls w' = calls w ++ checks_from (clock w) (S n)
      /\ clock w' = clock w + Z.of_nat n * Z.pos CAPTCHA_CHECK_INTERVAL.
Proof.
  induction n as [ | n IH]; intros fuel alert_sent w Hfuel Htime Hpresent Habsent;
    (destruct fuel as [ | fuel]; [ lia | ]); rewrite captcha_loop_unfold.
  - unfold marker_absent in Habsent. cbn [Z.of_nat Z.mul] in *.
    rewrite Z.add_0_r in *.
    replace (clock w - start_time <? CAPTCHA_WAIT_TIMEOUT) with true
      by (symmetry; apply Z.ltb_lt; lia).
    rewrite Habsent. eexists. split; [ reflexivity | ].
    split; [ | reflexivity ].
    cbn [calls logged traced]. unfold checks_from, check_at. cbn [seq map Z.of_nat Z.mul].
    rewrite Z.add_0_r. reflexivity.
  - replace (clock w - start_time <? CAPTCHA_WAIT_TIMEOUT) with true
      by (symmetry; apply Z.ltb_lt; lia).
    destruct (Hpresent 0%nat ltac:(lia)) as (x & l & Hx).
    cbn [Z.of_nat Z.mul] in Hx. rewrite Z.add_0_r in Hx. rewrite Hx.
    set (w1 := traced (Find_elements RECAPTCHA_SELECTOR) w).
    destruct (after_check_view alert_sent keyword w1) as (Hc & Hp & Hcalls & _).
    destruct (IH fuel true (after_check alert_sent keyword w1)) as (w' & E & Ec & Et).
    + lia.
    + rewrite Hc. cbn [clock w1 traced]. lia.
    + intros k Hk. rewrite Hp, Hc. cbn [page clock w1 traced].
      replace (clock w + Z.pos CAPTCHA_CHECK_INTERVAL
               + Z.of_nat k * Z.pos CAPTCHA_CHECK_INTERVAL)
        with (clock w + Z.of_nat (S k) * Z.pos CAPTCHA_CHECK_INTERVAL) by lia.
      apply Hpresent. lia.
    + rewrite Hp, Hc. cbn [page clock w1 traced].
      replace (clock w + Z.pos CAPTCHA_CHECK_INTERVAL
               + Z.of_nat n * Z.pos CAPTCHA_CHECK_INTERVAL)
        with (clock w + Z.of_nat (S n) * Z.pos CAPTCHA_CHECK_INTERVAL) by lia.
      exact Habsent.
    + exists w'. split; [ exact E | ]. split.
      * rewrite Ec, Hcalls, Hc. cbn [calls clock w1 traced].
        rewrite (checks_from_S (clock w) (S n)), <- app_assoc. reflexivity.
      * rewrite Et, Hc. cbn [clock w1 traced]. lia.
Qed.

Lemma captcha_loop_timed_out (keyword : Py.str) (start_time : Z) (n : nat) :
  forall (fuel : nat) (alert_sent : bool) (w : world),
    (n < fuel)%nat ->
    CAPTCHA_WAIT_TIMEOUT
    <= clock w - start_time + Z.of_nat n * Z.pos CAPTCHA_CHECK_INTERVAL ->
    (forall k, (k < n)%nat ->
       clock w - start_time + Z.of_nat k * Z.pos CAPTCHA_CHECK_INTERVAL
       < CAPTCHA_WAIT_TIMEOUT) ->
    (forall k, (k < n)%nat ->
       marker_present (page w) (clock w + Z.of_nat k * Z.pos CAPTCHA_CHECK_INTERVAL)) ->
    exists w',
      captcha_loop fuel keyword start_time alert_sent w = Some (inr false, w')
      /\ calls w' = calls w ++ checks_from (clock w) n
      /\ clock w' = clock w + Z.of_nat n * Z.pos CAPTCHA_CHECK_INTERVAL.
Proof.
  induction n as [ | n IH]; intros fuel alert_sent w Hfuel Hout Hin Hpresent;
    (destruct fuel as [ | fuel]; [ lia | ]); rewrite captcha_loop_unfold.
  - cbn [Z.of_nat Z.mul] in *. rewrite Z.add_0_r in *.
    replace (clock w - start_time <? CAPTCHA_WAIT_TIMEOUT) with false
      by (symmetry; apply Z.ltb_ge; lia).
    eexists. split; [ reflexivity | ]. split.
    + cbn [calls logged]. unfold checks_from. cbn [seq map].
      rewrite app_nil_r. reflexivity.
    + reflexivity.
  - pose proof (Hin 0%nat ltac:(lia)) as H0.
    cbn [Z.of_nat Z.mul] in H0. rewrite Z.add_0_r in H0.
    replace (clock w - start_time <? CAPTCHA_WAIT_TIMEOUT) with true
      by (symmetry; apply Z.ltb_lt; lia).
    destruct (Hpresent 0%nat ltac:(lia)) as (x & l & Hx).
    cbn [Z.of_nat Z.mul] in Hx. rewrite Z.add_0_r in Hx. rewrite Hx.
    set (w1 := traced (Find_elements RECAPTCHA_SELECTOR) w).
    destruct (after_check_view alert_sent keyword w1) as (Hc & Hp & Hcalls & _).
    destruct (IH fuel true (after_check alert_sent keyword w1)) as (w' & E & Ec & Et).
    + lia.
    + rewrite Hc. cbn [clock w1 traced]. lia.
    + intros k Hk. rewrite Hc. cbn [clock w1 traced].
      pose proof (Hin (S k) ltac:(lia)). lia.
    + intros k Hk. rewrite Hp, Hc. cbn [page clock w1 traced].
      replace (clock w + Z.pos CAPTCHA_CHECK_INTERVAL
               + Z.of_nat k * Z.pos CAPTCHA_CHECK_INTERVAL)
        with (clock w + Z.of_nat (S k) * Z.pos CAPTCHA_CHECK_INTERVAL) by lia.
      apply Hpresent. lia.
    + exists w'. split; [ exact E | ]. split.
      * rewrite Ec, Hcalls, Hc. cbn [calls clock w1 traced].
        rewrite (checks_from_S (clock w) n), <- app_assoc. reflexivity.
      * rewrite Et, Hc. cbn [clock w1 traced]. lia.
Qed.

Lemma captcha_fuel_enough (n : nat) :
  n = 0%nat \/ (Z.of_nat n - 1) * Z.pos CAPTCHA_CHECK_INTERVAL < CAPTCHA_WAIT_TIMEOUT ->
  (n < captcha_fuel)%nat.
Proof.
  unfold captcha_fuel. intros [-> | H]; [ lia | ].
  destruct n as [ | n]; [ lia | ].
  assert (Z.of_nat n <= CAPTCHA_WAIT_TIMEOUT / Z.pos CAPTCHA_CHECK_INTERVAL).
  { apply Z.div_le_lower_bound; lia. }
  lia.
Qed.

(** The loop comes to an end: the fuel of [handle_captcha] is never used up. *)
Lemma captcha_loop_total (keyword : Py.str) (start_time : Z) (fuel : nat) :
  forall (alert_sent : bool) (w : world),
    (1 <= fuel)%nat ->
    CAPTCHA_WAIT_TIMEOUT - (clock w - start_time)
    <= (Z.of_nat fuel - 1) * Z.pos CAPTCHA_CHECK_INTERVAL ->
    exists r w', captcha_loop fuel keyword start_time alert_sent w = Some (r, w').
Proof.
  induction fuel as [ | fuel IH]; intros alert_sent w Hfuel Hleft; [ lia | ].
  rewrite captcha_loop_unfold.
  destruct (clock w - start_time <? CAPTCHA_WAIT_TIMEOUT) eqn:E; [ | eauto ].
  apply Z.ltb_lt in E.
  destruct (doc_find (page w) (clock w) RECAPTCHA_SELECTOR) as [e | [ | x l]];
    [ eauto | eauto | ].
  set (w1 := traced (Find_elements RECAPTCHA_SELECTOR) w).
  destruct (after_check_view alert_sent keyword w1) as (Hc & _).
  apply IH; [ nia | ]. rewrite Hc. cbn [clock w1 traced]. nia.
Qed.

Lemma handle_captcha_total (keyword : Py.str) (w : world) :
  exists r w', handle_captcha keyword w = Some (r, w').
Proof.
  unfold handle_captcha, bindo, total, time_time, logging_warning, effect.
  apply captcha_loop_total; unfold captcha_fuel; [ lia | ].
  cbn [clock logged].
  pose proof (Z.mul_succ_div_gt CAPTCHA_WAIT_TIMEOUT
                (Z.pos CAPTCHA_CHECK_INTERVAL) ltac:(lia)) as Hdiv.
  destruct (Z.le_gt_cases 0 CAPTCHA_WAIT_TIMEOUT) as [Hpos | Hneg].
  - pose proof (Z.div_pos CAPTCHA_WAIT_TIMEOUT (Z.pos CAPTCHA_CHECK_INTERVAL)
                  Hpos ltac:(lia)).
    rewrite !Nat2Z.inj_succ, Z2Nat.id by assumption. lia.
  - rewrite !Nat2Z.inj_succ. nia.
Qed.

(** C5.  The gate checks the marker when it is called and then every
    [CAPTCHA_CHECK_INTERVAL], for as long as less than [CAPTCHA_WAIT_TIMEOUT]
    has passed.  If at one of these checks the marker is gone, it returns
    [True] there.  If the marker is present at each of them, it returns
    [False]: its checks are exactly those made before the time was up, the
    last call on the driver is the last of them, and it returns when the
    timeout has passed. *)
Theorem captcha_gate (keyword : Py.str) (w : world) :
  let interval := Z.pos CAPTCHA_CHECK_INTERVAL in
  (forall n : nat,
     Z.of_nat n * interval < CAPTCHA_WAIT_TIMEOUT ->
     (forall k, (k < n)%nat ->
        marker_present (page w) (clock w + Z.of_nat k * interval)) ->
     marker_absent (page w) (clock w + Z.of_nat n * interval) ->
     exists w',
       handle_captcha keyword w = Some (inr true, w')
       /\ calls w' = calls w ++ checks_from (clock w) (S n)
       /\ clock w' = clock w + Z.of_nat n * interval) /\
  ((forall k : nat,
      Z.of_nat k * interval < CAPTCHA_WAIT_TIMEOUT ->
      marker_present (page w) (clock w + Z.of_nat k * interval)) ->
   exists (n : nat) w',
     handle_captcha keyword w = Some (inr false, w')
     /\ calls w' = calls w ++ checks_from (clock w) n
     /\ (forall k, (k < n)%nat -> Z.of_nat k * interval < CAPTCHA_WAIT_TIMEOUT)
     /\ CAPTCHA_WAIT_TIMEOUT <= Z.of_nat n * interval
     /\ clock w' = clock w + Z.of_nat n * interval).
Proof.
  intros interval. unfold interval.
  set (w0 := logged WARNING
               (U "!!! CAPTCHA DETECTED !!! Pausing script and waiting for manual intervention.")
               w).
  assert (E : handle_captcha keyword w
              = captcha_loop captcha_fuel keyword (clock w) false w0) by reflexivity.
  split.
  - intros n Htime Hpresent Habsent. rewrite E.
    apply (captcha_loop_resolved keyword (clock w) n captcha_fuel false w0).
    + apply captcha_fuel_enough. right. lia.
    + cbn [clock w0 logged]. lia.
    + exact Hpresent.
    + exact Habsent.
  - intros Hpresent.
    set (q := (CAPTCHA_WAIT_TIMEOUT + Z.pos CAPTCHA_CHECK_INTERVAL - 1)
              / Z.pos CAPTCHA_CHECK_INTERVAL).
    pose proof (Z.mul_div_le (CAPTCHA_WAIT_TIMEOUT + Z.pos CAPTCHA_CHECK_INTERVAL - 1)
                  (Z.pos CAPTCHA_CHECK_INTERVAL) ltac:(lia)) as Hlo.
    pose proof (Z.mul_succ_div_gt (CAPTCHA_WAIT_TIMEOUT + Z.pos CAPTCHA_CHECK_INTERVAL - 1)
                  (Z.pos CAPTCHA_CHECK_INTERVAL) ltac:(lia)) as Hhi.
    fold q in Hlo, Hhi.
    assert (Hn : CAPTCHA_WAIT_TIMEOUT
                 <= Z.of_nat (Z.to_nat q) * Z.pos CAPTCHA_CHECK_INTERVAL).
    { destruct (Z.le_gt_cases 0 q); [ rewrite Z2Nat.id by assumption; lia | nia ]. }
    assert (Hk : forall k, (k < Z.to_nat q)%nat ->
                   Z.of_nat k * Z.pos CAPTCHA_CHECK_INTERVAL < CAPTCHA_WAIT_TIMEOUT).
    { intros k Hlt. assert (Z.of_nat k + 1 <= q) by lia. nia. }
    destruct (captcha_loop_timed_out keyword (clock w) (Z.to_nat q)
                captcha_fuel false w0) as (w' & E' & Ec & Et).
    + apply captcha_fuel_enough.
      destruct (Z.to_nat q) as [ | m] eqn:Eq; [ left; reflexivity | right ].
      specialize (Hk m ltac:(lia)). lia.
    + cbn [clock w0 logged]. lia.
    + intros k Hlt. cbn [clock w0 logged]. specialize (Hk k Hlt). lia.
    + intros k Hlt. apply Hpresent. apply Hk. exact Hlt.
    + exists (Z.to_nat q), w'. rewrite E. auto.
Qed.

(** ** Properties of the rank search *)

Ltac break_some :=
  repeat match goal with
    | |- exists r w', Some ?p = Some (r, w') =>
        exists (fst p), (snd p); destruct p; reflexivity
    | |- context [handle_captcha ?k ?w] =>
        let r := fresh "r" in
        let w' := fresh "w" in
        let E := fresh "E" in
        destruct (handle_captcha_total k w) as (r & w' & E); rewrite E
    | |- context [match ?x with _ => _ end] =>
        lazymatch x with
        | context [match _ with _ => _ end] => fail
        | _ => destruct x eqn:?
        end
    | |- context [if ?x then _ else _] =>
        lazymatch x with
        | context [if _ then _ else _] => fail
        | context [match _ with _ => _ end] => fail
        | _ => destruct x eqn:?
        end
    end.

(** The page loop and the search come to an end. *)
Lemma scrape_pages_total (keyword target_url : Py.str) (pages : list Z) :
  forall (current_rank_offset : Z) (w : world),
  exists r w',
    scrape_pages keyword target_url pages current_rank_offset w = Some (r, w').
Proof.
  induction pages as [ | page_num pages IH]; intros current_rank_offset w.
  - cbn [scrape_pages]. unfold total, ret. eauto.
  - cbn [scrape_pages]. unfold bindo, total. break_some; apply IH.
Qed.

Lemma search_total (keyword target_url : Py.str) (w : world) :
  exists r w', search keyword target_url w = Some (r, w').
Proof.
  unfold search, bindo, total.
  destruct (submit_query keyword target_url w) as [[e | []] w1]; [ eauto | ].
  apply scrape_pages_total.
Qed.

(** The error [find_google_rank] logs for an exception of its [try] block. *)
Definition search_error (keyword : Py.str) (e : exn) : Py.str :=
  match e with
  | TimeoutException =>
      U "Could not find the search box for keyword '" ++ keyword ++ U "'. Skipping."
  | _ =>
      U "An unexpected error occurred during Google search for '"
        ++ keyword ++ U "': " ++ str_of_exn e
  end.

(** C9.  A rank search always returns a pair and raises nothing.  Whatever
    exception its [try] block raises, the timeout of the wait for the search
    box or any other, is logged with the keyword and the search returns
    [("Not Found", "")]. *)
Theorem rank_search_contains_failures (keyword target_url : Py.str) (w : world) :
  (exists found w',
     find_google_rank keyword target_url w = Some (inr found, w')) /\
  (forall e w1,
     search keyword target_url w = Some (inl e, w1) ->
     exists w',
       find_google_rank keyword target_url w = Some (inr NOT_FOUND, w')
       /\ log w' = log w1
                   ++ [(ERROR, search_error keyword e);
                       (INFO, U "Finished scraping for '" ++ keyword
                                ++ U "'. Target URL not found.")]
       /\ page w' = page w1) /\
  (forall w1,
     search keyword target_url w = Some (inr None, w1) ->
     exists w',
       find_google_rank keyword target_url w = Some (inr NOT_FOUND, w')
       /\ page w' = page w1 /\ calls w' = calls w1).
Proof.
  unfold find_google_rank.
  destruct (search_total keyword target_url w) as (r & w1 & E). rewrite E.
  split; [ | split ].
  - destruct r as [[] | [found | ]]; eexists; eexists; reflexivity.
  - intros e w2 H. injection H as -> ->.
    destruct e; eexists; (split; [ reflexivity | ]);
      cbn [log page logged]; rewrite <- app_assoc; split; reflexivity.
  - intros w2 H. injection H as -> ->.
    eexists. split; [ reflexivity | ]. split; reflexivity.
Qed.

Lemma sleep_for_returns (d : delay) (w : world) :
  exists t,
    sleep_for d w = (inr tt, set_clock (clock w + t) (set_drawn (S (drawn w)) w)).
Proof.
  unfold sleep_for, random_uniform, bind, time_sleep.
  match goal with
  | |- context [?v <? 0] =>
      assert (E : (v <? 0) = false)
  end.
  { apply Z.ltb_ge.
    pose proof (Z.mod_pos_bound (entropy w (drawn w))
                  (snd (DELAY_CONFIG d) - fst (DELAY_CONFIG d) + 1)) as B.
    destruct d; cbn [DELAY_CONFIG fst snd] in *; lia. }
  rewrite E. eexists. reflexivity.
Qed.

Lemma until_presence_page (polls : nat) (selector : Py.str) :
  forall w, page (snd (until_presence polls selector w)) = page w.
Proof.
  induction polls as [ | polls IH]; intros w; cbn [until_presence];
    unfold time_sleep; run;
    destruct (doc_find (page w) (clock w) selector) as [[] | [ | x l]];
    try reflexivity.
  all: cbn [Z.ltb Z.compare]; run; try reflexivity.
  all: rewrite IH; reflexivity.
Qed.

Lemma find_rank_page (target_url : Py.str) (rank_offset : Z) (w : world) :
  page (snd (_find_rank_on_current_page target_url rank_offset w)) = page w.
Proof.
  unfold _find_rank_on_current_page, wait_presence, try_except, bind.
  pose proof (until_presence_page (Z.to_nat (5000 / 500)) RESULT_CONTAINER w) as P.
  destruct (until_presence _ _ w) as [[e | found] w1]; cbn [snd] in P.
  - run. exact P.
  - run. unfold lift.
    destruct (doc_find (page w1) (clock w1) RESULT_CONTAINER) as [e | blocks];
      run; [ exact P | ].
    destruct (clean_organic_results blocks) as [e | clean]; run; [ exact P | ].
    destruct (first_match target_url _) as [e | [[rank url] | ]]; run; exact P.
Qed.

Definition CLICK_SCRIPT : call := Execute_script (U "arguments[0].click();").

Lemma page_loop_entry (msg selector : Py.str) (w : world) :
  exists w1,
    (logging_info msg ;; sleep_for serp_read ;; find_elements selector) w
    = (doc_find (page w) (clock w1) selector, w1)
    /\ page w1 = page w.
Proof.
  unfold bind, logging_info, effect.
  destruct (sleep_for_returns serp_read (logged INFO msg w)) as [t E]. rewrite E.
  unfold find_elements.
  match goal with |- exists w1, (_, ?w') = _ /\ _ => exists w' end.
  split; reflexivity.
Qed.

Lemma go_to_next_page_follows (w : world) (next : element) (nexts : list element)
    (page2 : document) :
  (forall t, doc_find (page w) t NEXT_PAGE_BUTTON = inr (next :: nexts)) ->
  el_click next = inr (Some page2) ->
  exists w' before t,
    go_to_next_page w = (inr true, w')
    /\ page w' = page2
    /\ calls w' = before ++ [(t, CLICK_SCRIPT)].
Proof.
  intros Hnext Hclick.
  unfold go_to_next_page, try_except, bind, find_element, logging_info, effect.
  rewrite Hnext.
  match goal with
  | |- context [sleep_for before_next_page ?w0] =>
      destruct (sleep_for_returns before_next_page w0) as [t E]; rewrite E
  end.
  unfold execute_script_click, interact. rewrite Hclick.
  do 3 eexists. split; [ reflexivity | ]. split; reflexivity.
Qed.

(** C4, as the code has it.  When the first page shows no CAPTCHA and no
    match and has a next-page control, the page loop follows the control, so
    that the browser shows the second page, and goes on to the pages that
    remain with the rank offset 10.  With [MAX_PAGES_TO_SCRAPE = 1] no page
    remains: the search returns [("Not Found", "")] with the second page
    loaded and not scanned, the click on the control being its last call on
    the driver. *)
Theorem page_limit_ends_search (keyword target_url : Py.str) (w w1 : world)
    (blocks : list element) (next : element) (nexts : list element)
    (page2 : document) :
  submit_query keyword target_url w = (inr tt, w1) ->
  (forall t, doc_find (page w1) t RECAPTCHA_SELECTOR = inr []) ->
  shows w1 blocks ->
  first_match target_url (enumerate 1 (filter organic blocks)) = inr None ->
  (forall t, doc_find (page w1) t NEXT_PAGE_BUTTON = inr (next :: nexts)) ->
  el_click next = inr (Some page2) ->
  exists w2 before t,
    page w2 = page2
    /\ calls w2 = before ++ [(t, CLICK_SCRIPT)]
    /\ (forall more_pages,
          scrape_pages keyword target_url (1 :: more_pages) 0 w1
          = scrape_pages keyword target_url more_pages 10 w2)
    /\ exists w',
         find_google_rank keyword target_url w = Some (inr NOT_FOUND, w')
         /\ page w' = page2
         /\ calls w' = calls w2.
Proof.
  intros Hsubmit Hcaptcha Hshows Hnone Hnext Hclick.
  destruct (page_loop_entry
              (U "--- Scraping Page " ++ Py.str_of_int 1 ++ U " for '" ++ keyword
                 ++ U "' (simulating reading) ---")
              RECAPTCHA_SELECTOR w1) as (wa & Ea & Pa).
  rewrite Hcaptcha in Ea.
  assert (Sa : shows wa blocks) by (intros t; rewrite Pa; apply Hshows).
  pose proof (find_rank_on_shown_page wa target_url 0 blocks Sa) as Ef.
  change (1 + 0) with 1 in Ef. rewrite Hnone in Ef. cbn [scanned] in Ef.
  pose proof (find_rank_page target_url 0 wa) as Pb.
  destruct (_find_rank_on_current_page target_url 0 wa) as [r wb] eqn:Escan.
  cbn [fst snd] in Ef, Pb. subst r.
  assert (Hnext' : forall t, doc_find (page wb) t NEXT_PAGE_BUTTON = inr (next :: nexts))
    by (intros t; rewrite Pb, Pa; apply Hnext).
  destruct (go_to_next_page_follows wb next nexts page2 Hnext' Hclick)
    as (w2 & before & t & Eg & P2 & C2).
  assert (Hloop : forall more_pages,
             scrape_pages keyword target_url (1 :: more_pages) 0 w1
             = scrape_pages keyword target_url more_pages 10 w2).
  { intros more_pages. cbn [scrape_pages]. unfold bindo at 1. unfold total at 1.
    rewrite Ea. cbn [Py.truthy]. unfold bindo at 1. unfold total at 1, ret at 1.
    cbn [negb]. unfold bindo at 1. unfold total at 1.
    rewrite Escan.
    unfold bindo at 1. unfold total at 1. rewrite Eg. reflexivity. }
  exists w2, before, t. split; [ exact P2 | ]. split; [ exact C2 | ].
  split; [ exact Hloop | ].
  unfold find_google_rank, search, bindo at 1. unfold total at 1.
  rewrite Hsubmit.
  change (range 1 (MAX_PAGES_TO_SCRAPE + 1)) with [1].
  rewrite Hloop. cbn [scrape_pages]. unfold total, ret.
  eexists. split; [ reflexivity | ]. split; [ exact P2 | reflexivity ].
Qed.

(** ** More on the audit funnel *)

(** The dictionary the funnel returns for the verdicts of its four checks. *)
Definition funnel_outcome (deletion tm sufficient content : bool) : analysis :=
  if deletion then mkAnalysis (U "Deletion") (U "Yes")
  else if tm then mkAnalysis (U "T&M") (U "Yes")
  else if negb sufficient
  then mkAnalysis (U "Low Product Count") (U "Analysis stopped due to < 13 products.")
  else if content then mkAnalysis (U "Content") (U "Yes")
  else mkAnalysis (U "Optimized") (U "All checks passed").

(** The calls the funnel makes on the driver: all of them look something up. *)
Definition audit_lookups : list call :=
  [Find_elements DELETION_SELECTOR; Title;
   Find_element META_DESCRIPTION_SELECTOR;
   Find_element PRODUCT_COUNT_SELECTOR;
   Find_element SEO_CONTAINER_SELECTOR].

Ltac lookups :=
  repeat (apply Forall_cons || apply Forall_nil);
  unfold audit_lookups; cbn [snd In]; auto 8.

Lemma analyze_myntra_page_outcome (keyword start_url : Py.str) (w : world) :
  exists deletion tm sufficient content w' made,
    fst (check_for_deletion w) = inr deletion /\
    fst (check_for_tm_optimization w) = inr tm /\
    fst (is_product_count_sufficient w) = inr sufficient /\
    fst (check_for_content_optimization w) = inr content /\
    analyze_myntra_page keyword start_url w
    = (inr (funnel_outcome deletion tm sufficient content), w') /\
    same_view w w' /\
    calls w' = calls w ++ made /\
    Forall (fun c => In (snd c) audit_lookups) made.
Proof.
  set (w0 := logged INFO (U "--- Starting On-Page Analysis for '" ++ keyword
                            ++ U "' ---") w).
  assert (Hv0 : same_view w w0) by (split; reflexivity).
  destruct (check_for_deletion_total w0) as (d & w1 & Hd & Hv1 & Hc1).
  destruct (check_for_tm_optimization_total w1)
    as (t & w2 & made & Ht & Hv2 & Hc2 & Hmade).
  destruct (is_product_count_sufficient_total w2) as (sf & w3 & Hs & Hv3 & Hc3).
  destruct (check_for_content_optimization_total w3) as (c & w4 & Hc & Hv4 & Hc4).
  pose proof (same_view_trans _ _ _ Hv0 Hv1) as Hw1.
  pose proof (same_view_trans _ _ _ Hw1 Hv2) as Hw2.
  pose proof (same_view_trans _ _ _ Hw2 Hv3) as Hw3.
  pose proof (same_view_trans _ _ _ Hw3 Hv4) as Hw4.
  assert (Ed : fst (check_for_deletion w) = inr d)
    by (rewrite <- (check_for_deletion_view _ _ Hv0), Hd; reflexivity).
  assert (Et : fst (check_for_tm_optimization w) = inr t)
    by (rewrite <- (check_for_tm_optimization_view _ _ Hw1), Ht; reflexivity).
  assert (Es : fst (is_product_count_sufficient w) = inr sf)
    by (rewrite <- (is_product_count_sufficient_view _ _ Hw2), Hs; reflexivity).
  assert (Ec : fst (check_for_content_optimization w) = inr c)
    by (rewrite <- (check_for_content_optimization_view _ _ Hw3), Hc; reflexivity).
  assert (Hcalls0 : calls w0 = calls w) by reflexivity.
  assert (Hmade' : Forall (fun c => In (snd c) audit_lookups) made).
  { eapply Forall_impl; [ | exact Hmade ].
    intros cl [E | E]; rewrite E; unfold audit_lookups; cbn [In]; auto. }
  exists d, t, sf, c.
  unfold analyze_myntra_page, bind, logging_info, effect, ret.
  cbv beta iota. fold w0. rewrite Hd.
  destruct d; cbn [funnel_outcome].
  { do 2 eexists. repeat (split; [ reflexivity || assumption | ]).
    split; [ rewrite Hc1, Hcalls0; reflexivity | ].
    lookups. }
  rewrite Ht. destruct t.
  { do 2 eexists. repeat (split; [ reflexivity || assumption | ]).
    split; [ rewrite Hc2, Hc1, Hcalls0, <- app_assoc; reflexivity | ].
    apply Forall_app. split; [ | exact Hmade' ]. lookups. }
  rewrite Hs. destruct sf; cbn [negb].
  2:{ do 2 eexists. repeat (split; [ reflexivity || assumption | ]).
      split; [ rewrite Hc3, Hc2, Hc1, Hcalls0, <- !app_assoc; reflexivity | ].
      apply Forall_app. split; [ lookups | ].
      apply Forall_app. split; [ exact Hmade' | ].
      lookups. }
  rewrite Hc.
  assert (Hall : Forall (fun c => In (snd c) audit_lookups)
                   ([(clock w0, Find_elements DELETION_SELECTOR)] ++ made
                      ++ [(clock w2, Find_element PRODUCT_COUNT_SELECTOR)]
                      ++ [(clock w3, Find_element SEO_CONTAINER_SELECTOR)])).
  { apply Forall_app. split; [ lookups | ].
    apply Forall_app. split; [ exact Hmade' | ].
    apply Forall_app. split; lookups. }
  destruct c.
  - do 2 eexists. repeat (split; [ reflexivity || assumption | ]).
    split; [ | exact Hall ].
    rewrite Hc4, Hc3, Hc2, Hc1, Hcalls0, <- !app_assoc. reflexivity.
  - do 2 eexists. repeat (split; [ reflexivity || assumption | ]).
    split; [ | exact Hall ].
    cbn [calls logged]. rewrite Hc4, Hc3, Hc2, Hc1, Hcalls0, <- !app_assoc.
    reflexivity.
Qed.

(** X1.  The audit only reads: it raises nothing, leaves the loaded document
    and the clock as they were, and every call it makes on the driver is a
    lookup of the title or of one of its four selectors; it never navigates,
    types or clicks. *)
Theorem audit_only_reads (keyword start_url : Py.str) (w : world) :
  exists a w' made,
    analyze_myntra_page keyword start_url w = (inr a, w')
    /\ page w' = page w /\ clock w' = clock w
    /\ calls w' = calls w ++ made
    /\ Forall (fun c => In (snd c) audit_lookups) made.
Proof.
  destruct (analyze_myntra_page_outcome keyword start_url w)
    as (d & t & s & c & w' & made & _ & _ & _ & _ & E & [Hp Hc] & Hcalls & Hmade).
  eauto 10.
Qed.

(** X2.  The audit is idempotent and does not depend on its arguments: run
    again on the session as a first run leaves it, with any keyword and start
    URL, it returns the same status and value. *)
Theorem audit_is_idempotent (keyword start_url keyword' start_url' : Py.str)
    (w : world) :
  fst (analyze_myntra_page keyword' start_url'
         (snd (analyze_myntra_page keyword start_url w)))
  = fst (analyze_myntra_page keyword start_url w).
Proof.
  destruct (analyze_myntra_page_outcome keyword start_url w)
    as (d & t & s & c & w' & made & Ed & Et & Es & Ec & E & Hv & _).
  rewrite E. cbn [fst snd].
  destruct (analyze_myntra_page_outcome keyword' start_url' w')
    as (d' & t' & s' & c' & w'' & made' & Ed' & Et' & Es' & Ec' & E' & _).
  rewrite E'. cbn [fst].
  rewrite (check_for_deletion_view _ _ Hv), Ed in Ed'.
  rewrite (check_for_tm_optimization_view _ _ Hv), Et in Et'.
  rewrite (is_product_count_sufficient_view _ _ Hv), Es in Es'.
  rewrite (check_for_content_optimization_view _ _ Hv), Ec in Ec'.
  congruence.
Qed.

(** ** perform_internal_search *)

Definition INTERNAL_SEARCH_SELECTOR : Py.str := U "input.desktop-searchBar".

(** [s.split(sep)[0]] for a one-character [sep]: what comes before the first
    [sep]. *)
Fixpoint split_head (sep : N) (s : Py.str) : Py.str :=
  match s with
  | [] => []
  | c :: s' => if N.eqb c sep then [] else c :: split_head sep s'
  end.

(** The question mark. *)
Definition QUERY_MARK : N := 63%N.

(** [driver.current_url] *)
Definition current_url : M Py.str := fun w => (inr (doc_url (page w)), w).

Definition perform_internal_search (keyword start_url : Py.str) : M Py.str :=
  logging_info (U "Performing internal search for '" ++ keyword
                  ++ U "' starting from " ++ start_url) ;;
  try_except
    (get start_url ;;
     search_bar <- wait_presence 15000 INTERNAL_SEARCH_SELECTOR ;;
     clear search_bar ;;
     send_keys search_bar keyword ;;
     send_keys search_bar RETURN ;;
     let wait_for_selectors :=
       PRODUCT_COUNT_SELECTOR ++ U ", " ++ DELETION_SELECTOR in
     _ <- wait_presence 15000 wait_for_selectors ;;
     url <- current_url ;;
     let final_url := split_head QUERY_MARK url in
     logging_info (U "Internal search complete. Cleaned URL: " ++ final_url) ;;
     ret final_url)
    (fun e =>
       match e with
       | TimeoutException =>
           logging_error
             (U "Page did not load to a recognizable search result or 'no results' page. Using start URL as fallback.") ;;
           ret (split_head QUERY_MARK start_url)
       | _ =>
           logging_error (U "An unexpected error occurred during internal search: "
                            ++ str_of_exn e) ;;
           ret (split_head QUERY_MARK start_url)
       end).

Lemma split_head_without (sep : N) (s : Py.str) : ~ In sep (split_head sep s).
Proof.
  induction s as [ | c s IH]; cbn [split_head]; [ intros [] | ].
  destruct (N.eqb c sep) eqn:E; [ intros [] | ].
  apply N.eqb_neq in E. intros [H | H]; [ congruence | contradiction ].
Qed.

Lemma split_head_prefix (sep : N) (s : Py.str) :
  exists rest, s = split_head sep s ++ rest.
Proof.
  induction s as [ | c s [rest IH]]; cbn [split_head]; [ exists []; reflexivity | ].
  destruct (N.eqb c sep); [ exists (c :: s); reflexivity | ].
  exists rest. cbn. congruence.
Qed.

Lemma split_head_whole (sep : N) (s : Py.str) :
  ~ In sep s -> split_head sep s = s.
Proof.
  induction s as [ | c s IH]; intros H; cbn [split_head]; [ reflexivity | ].
  destruct (N.eqb c sep) eqn:E.
  - apply N.eqb_eq in E. exfalso. apply H. left. exact E.
  - rewrite IH; [ reflexivity | ]. intros Hin. apply H. right. exact Hin.
Qed.

(** The [try] block of the search either returns the cleaned URL of the page
    it ends on, or raises. *)
Lemma internal_search_cases (keyword start_url : Py.str) (w : world) :
  exists url w',
    perform_internal_search keyword start_url w = (inr url, w')
    /\ (url = split_head QUERY_MARK start_url
        \/ url = split_head QUERY_MARK (doc_url (page w'))).
Proof.
  unfold perform_internal_search, wait_presence.
  unfold bind at 1. unfold logging_info at 1, effect at 1.
  unfold try_except.
  match goal with
  | |- context [(get start_url ;; ?k) ?w0] =>
      destruct ((get start_url ;; k) w0) as [[e | url] w1] eqn:E
  end.
  - destruct e; run; do 2 eexists; (split; [ reflexivity | left; reflexivity ]).
  - exists url, w1. split; [ reflexivity | ]. right.
    revert E. unfold bind, current_url, ret, logging_info, effect.
    repeat match goal with
           | |- context [match ?x with _ => _ end] =>
               lazymatch x with
               | context [match _ with _ => _ end] => fail
               | _ => destruct x as [[? | ?] ?]
               end
           end; intros E; try discriminate E.
    injection E as <- <-. reflexivity.
Qed.

(** X3.  The internal search raises nothing, and the URL it returns has no
    query string: it holds no question mark and is the start of the start URL
    or of the URL of the page the browser ends on. *)
Theorem internal_search_returns_clean_url (keyword start_url : Py.str) (w : world) :
  exists url w',
    perform_internal_search keyword start_url w = (inr url, w')
    /\ ~ In QUERY_MARK url
    /\ exists rest, start_url = url ++ rest \/ doc_url (page w') = url ++ rest.
Proof.
  destruct (internal_search_cases keyword start_url w) as (url & w' & E & [H | H]).
  - exists url, w'. split; [ exact E | ]. subst url.
    split; [ apply split_head_without | ].
    destruct (split_head_prefix QUERY_MARK start_url) as [rest R].
    exists rest. left. exact R.
  - exists url, w'. split; [ exact E | ]. subst url.
    split; [ apply split_head_without | ].
    destruct (split_head_prefix QUERY_MARK (doc_url (page w'))) as [rest R].
    exists rest. right. exact R.
Qed.

(** X4.  When the start URL cannot be opened, or opens a page that never
    shows the search bar, the internal search returns the start URL without
    its query string. *)
Theorem internal_search_falls_back (keyword start_url : Py.str) (w : world) :
  (forall d, web w start_url = inr d ->
             forall t, doc_find d t INTERNAL_SEARCH_SELECTOR = inr []) ->
  fst (perform_internal_search keyword start_url w)
  = inr (split_head QUERY_MARK start_url).
Proof.
  intros H. unfold perform_internal_search, wait_presence.
  unfold bind at 1. unfold logging_info at 1, effect at 1.
  unfold try_except. unfold bind at 1. unfold get.
  cbn [web logged traced].
  destruct (web w start_url) as [e | d] eqn:W.
  - destruct e; reflexivity.
  - unfold bind at 1.
    match goal with
    | |- context [until_presence ?n ?s ?w0] =>
        pose proof (until_presence_absent n s w0 (H d eq_refl)) as T;
        destruct (until_presence n s w0) as [r w1]
    end.
    cbn [fst] in T. subst r. reflexivity.
Qed.

(** X5.  When the start URL opens a page with the search bar, the bar takes
    the keyword, submitting it loads a page, and that page shows the product
    count or the no-results message, the internal search returns the URL of
    that page without its query string and leaves the browser on it. *)
Theorem internal_search_finds_page (keyword start_url : Py.str) (w : world)
    (home results : document) (bar shown : element) (bars others : list element) :
  web w start_url = inr home ->
  doc_find home (clock w) INTERNAL_SEARCH_SELECTOR = inr (bar :: bars) ->
  el_clear bar = inr tt ->
  el_send_keys bar keyword = inr None ->
  el_send_keys bar RETURN = inr (Some results) ->
  doc_find results (clock w)
    (PRODUCT_COUNT_SELECTOR ++ U ", " ++ DELETION_SELECTOR) = inr (shown :: others) ->
  exists w',
    perform_internal_search keyword start_url w
    = (inr (split_head QUERY_MARK (doc_url results)), w')
    /\ page w' = results.
Proof.
  intros Hweb Hbar Hclear Hkeys Hreturn Hshown.
  unfold perform_internal_search, wait_presence.
  unfold bind at 1. unfold logging_info at 1, effect at 1.
  unfold try_except. unfold bind at 1. unfold get.
  cbn [web logged traced]. rewrite Hweb.
  unfold bind at 1.
  rewrite (until_presence_present _ _ _ bar bars) by exact Hbar.
  unfold bind at 1. unfold clear at 1. rewrite Hclear.
  unfold bind at 1. unfold send_keys at 1, interact. rewrite Hkeys.
  unfold bind at 1. unfold send_keys at 1, interact. rewrite Hreturn.
  unfold bind at 1.
  rewrite (until_presence_present _ _ _ shown others) by exact Hshown.
  eexists. split; reflexivity.
Qed.

(** ** More on the result scanner and the rank search *)

Lemma enumerate_rank {A : Type} (start : Z) (l : list A) (rank : Z) (x : A) :
  In (rank, x) (enumerate start l) ->
  start <= rank < start + Z.of_nat (List.length l).
Proof.
  revert start. induction l as [ | y l IH]; intros start H; [ destruct H | ].
  cbn [enumerate List.length] in *. destruct H as [H | H].
  - injection H as <- _. lia.
  - apply IH in H. lia.
Qed.

Lemma first_match_sound (target_url : Py.str) (ranked : list (Z * element))
    (rank : Z) (url : Py.str) :
  first_match target_url ranked = inr (Some (rank, url)) ->
  exists block,
    In (rank, block) ranked /\ link_url block = Some url
    /\ Py.truthy url = true /\ Py.contains target_url url = true.
Proof.
  induction ranked as [ | [r block] ranked IH]; [ discriminate | ].
  cbn [first_match].
  destruct (matching_url target_url block) as [e | [found | ]] eqn:M.
  - destruct e; try discriminate.
    intros H. destruct (IH H) as (b & Hin & Hrest). exists b. split; [ right | ]; auto.
  - intros H. injection H as <- <-. exists block. split; [ left; reflexivity | ].
    revert M. unfold matching_url, link_url, find_element_in, get_attribute.
    destruct (el_find block LINK_CONTAINER) as [ | link links]; [ discriminate | ].
    destruct (el_attribute link (U "href")) as [href | ]; [ | discriminate ].
    destruct (Py.truthy href && Py.contains target_url href) eqn:T; [ | discriminate ].
    intros M. injection M as ->. apply andb_prop in T. tauto.
  - intros H. destruct (IH H) as (b & Hin & Hrest). exists b. split; [ right | ]; auto.
Qed.

Lemma find_rank_sound (target_url : Py.str) (rank_offset : Z) (w : world) :
  fst (_find_rank_on_current_page target_url rank_offset w) = inr (None, None)
  \/ exists rank url,
       fst (_find_rank_on_current_page target_url rank_offset w)
       = inr (Some rank, Some url)
       /\ rank_offset + 1 <= rank
       /\ Py.truthy url = true
       /\ Py.contains target_url url = true.
Proof.
  unfold _find_rank_on_current_page, wait_presence, try_except, bind.
  destruct (until_presence _ _ w) as [[e | found] w1]; [ left; reflexivity | ].
  unfold find_elements, lift.
  destruct (doc_find (page w1) (clock w1) RESULT_CONTAINER) as [e | blocks];
    [ left; reflexivity | ].
  destruct (clean_organic_results blocks) as [e | clean]; [ left; reflexivity | ].
  destruct (first_match target_url _) as [e | [[rank url] | ]] eqn:F;
    [ left; reflexivity | | left; reflexivity ].
  right. exists rank, url. split; [ reflexivity | ].
  destruct (first_match_sound _ _ _ _ F) as (block & Hin & _ & Ht & Hc).
  apply enumerate_rank in Hin. split; [ lia | ]. split; assumption.
Qed.

(** X6.  Whatever the browser shows, the scanner returns either
    [(None, None)] or a rank together with a URL, never one without the
    other; a rank it returns lies above the rank offset, and the URL it
    returns is not empty and has the target as a substring. *)
Theorem scanner_result_is_sound (target_url : Py.str) (rank_offset : Z) (w : world) :
  exists w',
    _find_rank_on_current_page target_url rank_offset w = (inr (None, None), w')
    \/ exists rank url,
         _find_rank_on_current_page target_url rank_offset w
         = (inr (Some rank, Some url), w')
         /\ rank_offset < rank
         /\ url <> []
         /\ Py.contains target_url url = true.
Proof.
  exists (snd (_find_rank_on_current_page target_url rank_offset w)).
  destruct (find_rank_sound target_url rank_offset w)
    as [H | (rank & url & H & Hr & Ht & Hc)];
    destruct (_find_rank_on_current_page target_url rank_offset w) as [r w'];
    cbn [fst snd] in *; subst r.
  - left. reflexivity.
  - right. exists rank, url. split; [ reflexivity | ]. split; [ lia | ].
    split; [ | exact Hc ]. intros ->. discriminate Ht.
Qed.

Lemma scrape_pages_sound (keyword target_url : Py.str) (pages : list Z) :
  forall (current_rank_offset : Z) (w w' : world) (found : Py.str * Py.str),
    0 <= current_rank_offset ->
    scrape_pages keyword target_url pages current_rank_offset w
    = Some (inr (Some found), w') ->
    exists rank,
      found = (Py.str_of_int rank, snd found)
      /\ 1 <= rank
      /\ Py.truthy (snd found) = true
      /\ Py.contains target_url (snd found) = true.
Proof.
  induction pages as [ | page_num pages IH];
    intros current_rank_offset w w' found Hoffset.
  - cbn [scrape_pages]. unfold total, ret. discriminate.
  - cbn [scrape_pages]. unfold bindo at 1. unfold total at 1.
    match goal with
    | |- context [(?m ;; ?k) w] => destruct ((m ;; k) w) as [[e | captcha] w1]
    end; [ discriminate | ].
    unfold bindo at 1.
    assert (Hgate : exists r w2,
               (if Py.truthy captcha then handle_captcha keyword
                else total (ret true)) w1 = Some (r, w2)).
    { destruct (Py.truthy captcha); [ apply handle_captcha_total | ].
      unfold total, ret. eauto. }
    destruct Hgate as (r & w2 & Hgate). rewrite Hgate.
    destruct r as [e | solved]; [ discriminate | ].
    destruct solved; cbn [negb]; [ | unfold total, ret; discriminate ].
    unfold bindo at 1. unfold total at 1.
    destruct (find_rank_sound target_url current_rank_offset w2)
      as [H | (rank & url & H & Hr & Ht & Hc)];
      destruct (_find_rank_on_current_page target_url current_rank_offset w2)
        as [r w3]; cbn [fst] in H; subst r.
    + unfold bindo at 1. unfold total at 1.
      destruct (go_to_next_page w3) as [[e | more] w4]; [ discriminate | ].
      destruct more; [ | unfold total, ret; discriminate ].
      apply IH. lia.
    + unfold total, bind, logging_info, effect, ret.
      intros E. injection E as <- _. exists rank. cbn [snd].
      split; [ reflexivity | ]. split; [ lia | ]. split; assumption.
Qed.

(** X7.  What a rank search returns is either [("Not Found", "")] or the
    decimal of a rank of at least 1 with a URL that is not empty and has the
    target as a substring; so the URL is empty only when nothing was found. *)
Theorem rank_search_result_is_sound (keyword target_url : Py.str) (w : world) :
  exists found w',
    find_google_rank keyword target_url w = Some (inr found, w')
    /\ (found = NOT_FOUND
        \/ exists rank,
             found = (Py.str_of_int rank, snd found)
             /\ 1 <= rank
             /\ snd found <> []
             /\ Py.contains target_url (snd found) = true).
Proof.
  unfold find_google_rank.
  destruct (search_total keyword target_url w) as (r & w1 & E). rewrite E.
  destruct r as [e | [found | ]].
  - destruct e; do 2 eexists; (split; [ reflexivity | left; reflexivity ]).
  - exists found, w1. split; [ reflexivity | ]. right.
    revert E. unfold search, bindo at 1. unfold total at 1.
    destruct (submit_query keyword target_url w) as [[e | []] w0]; [ discriminate | ].
    intros E. apply scrape_pages_sound in E; [ | lia ].
    destruct E as (rank & Hf & Hr & Ht & Hc). exists rank.
    split; [ exact Hf | ]. split; [ exact Hr | ]. split; [ | exact Hc ].
    intros Hnil. rewrite Hnil in Ht. discriminate Ht.
  - do 2 eexists. split; [ reflexivity | left; reflexivity ].
Qed.

(** ** More on the CAPTCHA gate *)




Lemma handle_captcha_timed_out (keyword : Py.str) (w : world) :
  (forall t, marker_present (page w) t) ->
  exists (n : nat) w',
    handle_captcha keyword w = Some (inr false, w')
    /\ calls w' = calls w ++ checks_from (clock w) n
    /\ clock w' = clock w + Z.of_nat n * Z.pos CAPTCHA_CHECK_INTERVAL
    /\ CAPTCHA_WAIT_TIMEOUT <= Z.of_nat n * Z.pos CAPTCHA_CHECK_INTERVAL.
Proof.
  intros Hpresent.
  set (w0 := logged WARNING
               (U "!!! CAPTCHA DETECTED !!! Pausing script and waiting for manual intervention.")
               w).
  assert (E : handle_captcha keyword w
              = captcha_loop captcha_fuel keyword (clock w) false w0) by reflexivity.
  set (q := (CAPTCHA_WAIT_TIMEOUT + Z.pos CAPTCHA_CHECK_INTERVAL - 1)
            / Z.pos CAPTCHA_CHECK_INTERVAL).
  pose proof (Z.mul_div_le (CAPTCHA_WAIT_TIMEOUT + Z.pos CAPTCHA_CHECK_INTERVAL - 1)
                (Z.pos CAPTCHA_CHECK_INTERVAL) ltac:(lia)) as Hlo.
  pose proof (Z.mul_succ_div_gt (CAPTCHA_WAIT_TIMEOUT + Z.pos CAPTCHA_CHECK_INTERVAL - 1)
                (Z.pos CAPTCHA_CHECK_INTERVAL) ltac:(lia)) as Hhi.
  fold q in Hlo, Hhi.
  assert (Hn : CAPTCHA_WAIT_TIMEOUT
               <= Z.of_nat (Z.to_nat q) * Z.pos CAPTCHA_CHECK_INTERVAL).
  { destruct (Z.le_gt_cases 0 q); [ rewrite Z2Nat.id by assumption; lia | nia ]. }
  assert (Hk : forall k, (k < Z.to_nat q)%nat ->
                 Z.of_nat k * Z.pos CAPTCHA_CHECK_INTERVAL < CAPTCHA_WAIT_TIMEOUT).
  { intros k Hlt. assert (Z.of_nat k + 1 <= q) by lia. nia. }
  destruct (captcha_loop_timed_out keyword (clock w) (Z.to_nat q)
              captcha_fuel false w0) as (w' & E' & Ec & Et).
  - apply captcha_fuel_enough.
    destruct (Z.to_nat q) as [ | m] eqn:Eq; [ left; reflexivity | right ].
    specialize (Hk m ltac:(lia)). lia.
  - cbn [clock w0 logged]. lia.
  - intros k Hlt. cbn [clock w0 logged]. specialize (Hk k Hlt). lia.
  - intros k Hlt. apply Hpresent.
  - exists (Z.to_nat q), w'. rewrite E. auto.
Qed.

Lemma checks_from_lookups (start : Z) (n : nat) :
  Forall (fun c => snd c = Find_elements RECAPTCHA_SELECTOR) (checks_from start n).
Proof.
  unfold checks_from. apply Forall_forall. intros c Hin.
  apply in_map_iff in Hin. destruct Hin as (k & <- & _). reflexivity.
Qed.

Lemma captcha_loop_page (keyword : Py.str) (start_time : Z) (fuel : nat) :
  forall (alert_sent : bool) (w w' : world) (r : res bool),
    captcha_loop fuel keyword start_time alert_sent w = Some (r, w') ->
    page w' = page w.
Proof.
  induction fuel as [ | fuel IH]; intros alert_sent w w' r; [ discriminate | ].
  rewrite captcha_loop_unfold.
  destruct (clock w - start_time <? CAPTCHA_WAIT_TIMEOUT).
  - destruct (doc_find (page w) (clock w) RECAPTCHA_SELECTOR) as [e | [ | x l]].
    + intros E. injection E as _ <-. reflexivity.
    + intros E. injection E as _ <-. reflexivity.
    + intros E. apply IH in E. rewrite E.
      destruct (after_check_view alert_sent keyword
                  (traced (Find_elements RECAPTCHA_SELECTOR) w)) as (_ & Hp & _).
      rewrite Hp. reflexivity.
  - intros E. injection E as _ <-. reflexivity.
Qed.

(** X9.  A CAPTCHA that stays ends the rank search: when the results page
    shows the marker for good, the search returns [("Not Found", "")] once
    the gate has given up, and from the submission of the query on its only
    calls on the driver are lookups of the marker: the page is not scanned
    and no next-page control is looked for. *)
Theorem unsolved_captcha_ends_search (keyword target_url : Py.str) (w w1 : world) :
  submit_query keyword target_url w = (inr tt, w1) ->
  (forall t, marker_present (page w1) t) ->
  exists w' made,
    find_google_rank keyword target_url w = Some (inr NOT_FOUND, w')
    /\ page w' = page w1
    /\ calls w' = calls w1 ++ made
    /\ Forall (fun c => snd c = Find_elements RECAPTCHA_SELECTOR) made.
Proof.
  intros Hsubmit Hpresent.
  unfold find_google_rank, search, bindo at 1. unfold total at 1.
  rewrite Hsubmit.
  change (range 1 (MAX_PAGES_TO_SCRAPE + 1)) with [1].
  cbn [scrape_pages]. unfold bindo at 1. unfold total at 1.
  unfold bind at 1. unfold logging_info at 1, effect at 1.
  unfold bind at 1.
  match goal with
  | |- context [sleep_for serp_read ?w0] =>
      destruct (sleep_for_returns serp_read w0) as [t E]; rewrite E
  end.
  unfold find_elements at 1.
  match goal with
  | |- context [doc_find (page ?wa) (clock ?wa) RECAPTCHA_SELECTOR] =>
      set (wa0 := wa)
  end.
  destruct (Hpresent (clock wa0)) as (x & l & Hx).
  change (page wa0) with (page w1). rewrite Hx. cbn [Py.truthy].
  unfold bindo at 1.
  set (wa := traced (Find_elements RECAPTCHA_SELECTOR) wa0).
  destruct (handle_captcha_timed_out keyword wa Hpresent)
    as (n & wb & Eg & Ec & _ & _).
  rewrite Eg. cbn [negb]. unfold total, ret.
  pose proof Eg as Hp. unfold handle_captcha, bindo, total, time_time,
    logging_warning, effect in Hp. apply captcha_loop_page in Hp.
  do 2 eexists. split; [ reflexivity | ].
  split; [ cbn [page logged]; rewrite Hp; reflexivity | ].
  split.
  - cbn [calls logged]. rewrite Ec. unfold wa. cbn [calls traced].
    rewrite <- app_assoc. reflexivity.
  - apply Forall_app. split; [ repeat constructor | apply checks_from_lookups ].
Qed.

(** ** The detour's choice of links and the typing of the keyword *)

(** The list comprehension of [perform_random_detour]: the link of every
    result whose [href] does not hold the target.  The link is looked up in
    the condition and again for the element kept. *)
Fixpoint non_target_links (target_url : Py.str) (all_results : list element)
    : res (list element) :=
  match all_results with
  | [] => inr []
  | result :: results =>
      match find_element_in result LINK_CONTAINER with
      | inl e => inl e
      | inr link =>
          if negb (Py.contains target_url
                     (or_empty (get_attribute link (U "href"))))
          then
            match find_element_in result LINK_CONTAINER with
            | inl e => inl e
            | inr kept =>
                match non_target_links target_url results with
                | inl e => inl e
                | inr links => inr (kept :: links)
                end
            end
          else non_target_links target_url results
      end
  end.

(** X10.  The links the detour chooses from never lead to the target: each
    is the link of one of the results, and its [href] (the empty string when
    it has none) does not have the target as a substring. *)
Theorem detour_links_avoid_target (target_url : Py.str)
    (all_results links : list element) :
  non_target_links target_url all_results = inr links ->
  Forall (fun link =>
            Py.contains target_url (or_empty (el_attribute link (U "href"))) = false
            /\ exists result,
                 In result all_results
                 /\ find_element_in result LINK_CONTAINER = inr link)
         links.
Proof.
  revert links. induction all_results as [ | result results IH]; intros links.
  - cbn. intros E. injection E as <-. constructor.
  - cbn [non_target_links]. unfold get_attribute.
    destruct (find_element_in result LINK_CONTAINER) as [e | link] eqn:L;
      [ discriminate | ].
    destruct (Py.contains target_url (or_empty (el_attribute link (U "href"))))
      eqn:C; cbn [negb].
    + intros E. apply IH in E. eapply Forall_impl; [ | exact E ].
      intros l (Hc & r & Hin & Hl). split; [ exact Hc | ].
      exists r. split; [ right; exact Hin | exact Hl ].
    + destruct (non_target_links target_url results) as [e | rest];
        [ discriminate | ].
      intros E. injection E as <-. constructor.
      * split; [ exact C | ]. exists result. split; [ left; reflexivity | exact L ].
      * eapply Forall_impl; [ | exact (IH rest eq_refl) ].
        intros l (Hc & r & Hin & Hl). split; [ exact Hc | ].
        exists r. split; [ right; exact Hin | exact Hl ].
Qed.

(** X11.  One result without a link element is enough for the detour to
    find no link at all: the comprehension raises [NoSuchElementException];
    and with the empty string as target no link is left to choose from. *)
Theorem detour_links_edge_cases (target_url : Py.str) (all_results : list element) :
  ((exists result, In result all_results /\ el_find result LINK_CONTAINER = []) ->
   non_target_links target_url all_results = inl NoSuchElementException)
  /\ (target_url = [] ->
      Forall (fun result => el_find result LINK_CONTAINER <> []) all_results ->
      non_target_links target_url all_results = inr []).
Proof.
  split.
  - intros (bad & Hin & Hbad).
    induction all_results as [ | result results IH]; [ destruct Hin | ].
    cbn [non_target_links]. unfold find_element_in.
    destruct (el_find result LINK_CONTAINER) as [ | link rest] eqn:L;
      [ reflexivity | ].
    assert (Hrest : non_target_links target_url results = inl NoSuchElementException).
    { apply IH. destruct Hin as [-> | Hin]; [ congruence | exact Hin ]. }
    rewrite Hrest. destruct (negb _); reflexivity.
  - intros -> Hall. induction Hall as [ | result results Hlink _ IH]; [ reflexivity | ].
    cbn [non_target_links]. unfold find_element_in.
    destruct (el_find result LINK_CONTAINER) as [ | link rest]; [ congruence | ].
    replace (Py.contains [] (or_empty (get_attribute link (U "href")))) with true
      by (destruct (or_empty (get_attribute link (U "href"))); reflexivity).
    cbn [negb]. exact IH.
Qed.

Lemma sleep_for_bounds (d : delay) (w : world) :
  exists t,
    sleep_for d w = (inr tt, set_clock (clock w + t) (set_drawn (S (drawn w)) w))
    /\ fst (DELAY_CONFIG d) <= t <= snd (DELAY_CONFIG d).
Proof.
  unfold sleep_for, random_uniform, bind, time_sleep.
  pose proof (Z.mod_pos_bound (entropy w (drawn w))
                (snd (DELAY_CONFIG d) - fst (DELAY_CONFIG d) + 1)) as B.
  match goal with
  | |- context [?v <? 0] => assert (E : (v <? 0) = false)
  end.
  { apply Z.ltb_ge. destruct d; cbn [DELAY_CONFIG fst snd] in *; lia. }
  rewrite E. eexists. split; [ reflexivity | ].
  destruct d; cbn [DELAY_CONFIG fst snd] in *; lia.
Qed.

(** X12.  The keyword is typed one character at a time, in order, with a
    pause of 90 to 220 ms after each: when the search box takes every
    character, the keys sent are the characters of the keyword, one random
    delay is drawn for each, and the typing takes between 90 and 220 ms per
    character. *)
Theorem keyword_is_typed_in_order (search_box : element) (keyword : Py.str) :
  forall w : world,
    (forall c, In c keyword -> el_send_keys search_box [c] = inr None) ->
    exists w',
      type_keyword search_box keyword w = (inr tt, w')
      /\ map snd (calls w')
         = map snd (calls w) ++ map (fun c => Send_keys [c]) keyword
      /\ page w' = page w
      /\ drawn w' = (drawn w + List.length keyword)%nat
      /\ 90 * Py.len keyword <= clock w' - clock w <= 220 * Py.len keyword.
Proof.
  unfold Py.len.
  induction keyword as [ | c keyword IH]; intros w Hkeys.
  - exists w. cbn. rewrite app_nil_r, Nat.add_0_r.
    repeat split; try reflexivity; lia.
  - cbn [type_keyword]. unfold bind at 1. unfold send_keys, interact.
    rewrite (Hkeys c) by (left; reflexivity).
    unfold bind at 1.
    match goal with
    | |- context [sleep_for typing ?w0] =>
        destruct (sleep_for_bounds typing w0) as (t & E & Ht); rewrite E
    end.
    cbn [DELAY_CONFIG fst snd] in Ht.
    match goal with
    | |- context [type_keyword search_box keyword ?w1] =>
        destruct (IH w1) as (w' & E' & Hc & Hp & Hd & Ht')
    end.
    { intros c' Hin. apply Hkeys. right. exact Hin. }
    exists w'. split; [ exact E' | ].
    cbn [calls page drawn clock set_clock set_drawn traced] in Hc, Hp, Hd, Ht'.
    split; [ rewrite Hc, map_app, <- app_assoc; reflexivity | ].
    split; [ exact Hp | ].
    split; [ rewrite Hd; cbn [List.length]; lia | ].
    cbn [List.length]. lia.
Qed.

(** ** main_automator.py: the processing of the rows *)

Definition FALLBACK_URL : Py.str := U "https://www.myntra.com".

(** The column of the sheet headed ["Processing Status"], counted from 1, as
    the main script finds it in the first row before it starts. *)
Variable status_col_index : Z.

(** A row of the data frame: the text of its cells, as [str(row.get(...))]
    gives it, and the row of the sheet it comes from. *)
Record row : Type := mkRow {
  Keyword : Py.str;
  Company1 : Py.str;
  Processing_Status : Py.str;
  original_index : Z
}.

(** The worksheet: its cells by row and column; [worksheet.update_cell] may
    raise, which [outage] says for the first, second, ... call of it. *)
Record worksheet : Type := mkSheet {
  cells : Z -> Z -> Py.str;
  written : nat;
  outage : nat -> option exn
}.

(** The sheet and the browser session the script works with. *)
Record office : Type := mkOffice { sheet : worksheet; session : world }.

Definition J (A : Type) : Type := office -> option (res A * office).

Definition done {A : Type} (a : A) : J A := fun o => Some (inr a, o).

Definition andthen {A B : Type} (m : J A) (k : A -> J B) : J B :=
  fun o =>
    match m o with
    | None => None
    | Some (inl e, o') => Some (inl e, o')
    | Some (inr a, o') => k a o'
    end.

(** A program of the session, run beside the sheet. *)
Definition browse {A : Type} (m : MO A) : J A :=
  fun o =>
    match m (session o) with
    | None => None
    | Some (r, w') => Some (r, mkOffice (sheet o) w')
    end.

Definition set_cell (r c : Z) (v : Py.str) (cs : Z -> Z -> Py.str)
    : Z -> Z -> Py.str :=
  fun r' c' => if (r' =? r) && (c' =? c) then v else cs r' c'.

(** [worksheet.update_cell(r, c, v)] *)
Definition update_cell (r c : Z) (v : Py.str) : J unit :=
  fun o =>
    let ws := sheet o in
    match outage ws (written ws) with
    | Some e =>
        Some (inl e, mkOffice (mkSheet (cells ws) (S (written ws)) (outage ws))
                              (session o))
    | None =>
        Some (inr tt,
              mkOffice (mkSheet (set_cell r c v (cells ws)) (S (written ws))
                                (outage ws))
                       (session o))
    end.

(** [a == b] on strings. *)
Fixpoint str_equal (a b : Py.str) : bool :=
  match a, b with
  | [], [] => true
  | c :: a', d :: b' => N.eqb c d && str_equal a' b'
  | _, _ => false
  end.

Definition RULE : Py.str := repeat 61%N 80.

(** The body of the loop over the rows, for the row [i] of [n]. *)
Definition process_row (i n : Z) (r : row) : J unit :=
  let keyword := Py.strip (Keyword r) in
  let target_url := Py.strip (Company1 r) in
  let original_row_index := original_index r in
  let row_status := Py.strip (Processing_Status r) in
  if str_equal row_status (U "Completed")
  then
    browse (total (logging_info
                     (U "Skipping row " ++ Py.str_of_int original_row_index
                        ++ U " ('" ++ keyword
                        ++ U "') as it is already marked 'Completed'.")))
  else
    andthen (browse (total (logging_info
                              ([10%N] ++ RULE ++ [10%N] ++ U ">>> PROCESSING "
                                 ++ Py.str_of_int (i + 1) ++ U "/" ++ Py.str_of_int n
                                 ++ U ": '" ++ keyword ++ U "' (Sheet Row: "
                                 ++ Py.str_of_int original_row_index ++ U ")"
                                 ++ [10%N] ++ RULE))))
            (fun _ =>
    if negb (Py.truthy keyword) || negb (Py.truthy target_url)
    then
      browse (total (logging_warning
                       (U "Skipping row " ++ Py.str_of_int original_row_index
                          ++ U " due to missing Keyword or Company1 URL.")))
    else
      andthen (browse (find_google_rank keyword target_url)) (fun found =>
      let found_rank := fst found in
      let ranking_url := snd found in
      let start_url_for_analysis :=
        if Py.truthy ranking_url then ranking_url else FALLBACK_URL in
      andthen (update_cell original_row_index 3 found_rank) (fun _ =>
      andthen (update_cell original_row_index 4 ranking_url) (fun _ =>
      andthen (browse (total
                 (logging_info
                    (U "Updated Sheet [Rankings, Ranking URL] for row "
                       ++ Py.str_of_int original_row_index ++ U ".") ;;
                  page_to_analyze <-
                    perform_internal_search keyword start_url_for_analysis ;;
                  logging_info (U "Re-navigating to the cleaned URL for analysis: "
                                  ++ page_to_analyze) ;;
                  get page_to_analyze ;;
                  _ <- wait_presence 15000 (U "body") ;;
                  analysis_result <- analyze_myntra_page keyword page_to_analyze ;;
                  ret (page_to_analyze, analysis_result))))
              (fun analysed =>
      let page_to_analyze := fst analysed in
      let analysis_status := status (snd analysed) in
      andthen (update_cell original_row_index 5 []) (fun _ =>
      andthen (update_cell original_row_index 6 []) (fun _ =>
      andthen (update_cell original_row_index 7 []) (fun _ =>
      andthen (if str_equal analysis_status (U "Deletion")
               then update_cell original_row_index 5 keyword
               else if str_equal analysis_status (U "T&M")
               then update_cell original_row_index 6 page_to_analyze
               else if str_equal analysis_status (U "Content")
               then update_cell original_row_index 7 page_to_analyze
               else done tt)
              (fun _ =>
      andthen (if status_col_index =? 0 then done tt
               else
                 andthen (update_cell original_row_index status_col_index
                                      (U "Completed"))
                         (fun _ =>
                 browse (total (logging_info
                                  (U "Marked row "
                                     ++ Py.str_of_int original_row_index
                                     ++ U " as 'Completed'.")))))
              (fun _ =>
      browse (total (logging_info (U "Taking a break before the next keyword...") ;;
                     t <- random_uniform 12000 22000 ;;
                     time_sleep t)))))))))))).

(** The loop over the rows of the data frame: an exception ends it. *)
Fixpoint process_rows (i n : Z) (rows : list row) : J unit :=
  match rows with
  | [] => done tt
  | r :: rows' =>
      andthen (process_row i n r) (fun _ => process_rows (i + 1) n rows')
  end.

Lemma str_equal_eq (a b : Py.str) : str_equal a b = true <-> a = b.
Proof.
  revert b. induction a as [ | c a IH]; intros [ | d b]; cbn [str_equal];
    try (split; [ discriminate | discriminate ]); [ tauto | ].
  rewrite andb_true_iff, N.eqb_eq, IH. split.
  - intros [-> ->]. reflexivity.
  - intros H. injection H as -> ->. auto.
Qed.


Lemma andthen_raises {A B : Type} (m : J A) (k : A -> J B) (o o' : office) (e : exn) :
  andthen m k o = Some (inl e, o') ->
  m o = Some (inl e, o')
  \/ exists a o1, m o = Some (inr a, o1) /\ k a o1 = Some (inl e, o').
Proof.
  unfold andthen. destruct (m o) as [[[e1 | a] o1] | ]; try discriminate.
  - intros H. left. injection H as -> ->. reflexivity.
  - intros H. right. eauto.
Qed.

Lemma update_cell_result (r c : Z) (v : Py.str) (o o' : office) (x : res unit) :
  update_cell r c v o = Some (x, o') ->
  session o' = session o
  /\ cells (sheet o')
     = match x with
       | inr _ => set_cell r c v (cells (sheet o))
       | inl _ => cells (sheet o)
       end.
Proof.
  unfold update_cell. destruct (outage (sheet o) (written (sheet o)));
    intros H; injection H as <- <-; split; reflexivity.
Qed.

Lemma browse_result {A : Type} (m : MO A) (o o' : office) (x : res A) :
  browse m o = Some (x, o') ->
  sheet o' = sheet o /\ m (session o) = Some (x, session o').
Proof.
  unfold browse. destruct (m (session o)) as [[r w'] | ]; [ | discriminate ].
  intros H. injection H as <- <-. split; reflexivity.
Qed.

(** A row already marked ['Completed'], or whose keyword or target is empty
    or blank, is skipped: the sheet stays as it is, nothing is asked of the
    browser, and the row is not marked. *)
Lemma process_row_skips (i n : Z) (r : row) (o : office) :
  Py.strip (Processing_Status r) = U "Completed"
  \/ Py.strip (Keyword r) = [] \/ Py.strip (Company1 r) = [] ->
  exists o',
    process_row i n r o = Some (inr tt, o')
    /\ sheet o' = sheet o
    /\ calls (session o') = calls (session o)
    /\ page (session o') = page (session o).
Proof.
  intros H. unfold process_row.
  destruct (str_equal (Py.strip (Processing_Status r)) (U "Completed")) eqn:S.
  - eexists. split; [ reflexivity | ]. repeat split.
  - assert (Hempty : Py.strip (Keyword r) = [] \/ Py.strip (Company1 r) = []).
    { destruct H as [H | H]; [ | exact H ].
      apply str_equal_eq in H. congruence. }
    unfold andthen, browse, total, logging_info, logging_warning, effect.
    cbn [session sheet].
    replace (negb (Py.truthy (Py.strip (Keyword r)))
             || negb (Py.truthy (Py.strip (Company1 r)))) with true
      by (destruct Hempty as [-> | ->]; cbn; rewrite ?orb_true_r; reflexivity).
    eexists. split; [ reflexivity | ]. repeat split.
Qed.



Lemma set_cell_other (r c r' c' : Z) (v : Py.str) (cs : Z -> Z -> Py.str) :
  r' <> r \/ c' <> c -> set_cell r c v cs r' c' = cs r' c'.
Proof.
  unfold set_cell. intros H.
  destruct (Z.eqb_spec r' r); destruct (Z.eqb_spec c' c); cbn; try reflexivity.
  lia.
Qed.


(** The cells outside columns 3 to 7 of the row [r] are the same in two
    states of the sheet. *)
Definition kept (r : row) (o o' : office) : Prop :=
  forall r' c',
    r' <> original_index r \/ c' < 3 \/ 7 < c' ->
    cells (sheet o') r' c' = cells (sheet o) r' c'.

Lemma kept_refl (r : row) (o : office) : kept r o o.
Proof. intros r' c' _. reflexivity. Qed.

Lemma kept_trans (r : row) (o1 o2 o3 : office) :
  kept r o1 o2 -> kept r o2 o3 -> kept r o1 o3.
Proof. intros H1 H2 r' c' H. rewrite (H2 r' c' H). apply H1. exact H. Qed.

Lemma kept_browse {A : Type} (r : row) (m : MO A) (o o' : office) (x : res A) :
  browse m o = Some (x, o') -> kept r o o'.
Proof.
  intros H. apply browse_result in H. destruct H as [E _].
  intros r' c' _. rewrite E. reflexivity.
Qed.

Lemma kept_update (r : row) (c : Z) (v : Py.str) (o o' : office) (x : res unit) :
  3 <= c <= 7 ->
  update_cell (original_index r) c v o = Some (x, o') -> kept r o o'.
Proof.
  intros Hc H. apply update_cell_result in H. destruct H as [_ E].
  intros r' c' Hout. rewrite E. destruct x; [ reflexivity | ].
  apply set_cell_other. lia.
Qed.

Lemma break_returns (msg : Py.str) (w : world) :
  exists w',
    (logging_info msg ;; t <- random_uniform 12000 22000 ;; time_sleep t) w
    = (inr tt, w').
Proof.
  unfold bind, logging_info, effect, random_uniform, time_sleep.
  cbn [entropy drawn logged].
  pose proof (Z.mod_pos_bound (entropy w (drawn w)) (22000 - 12000 + 1)
                ltac:(lia)) as B.
  replace (12000 + entropy w (drawn w) mod (22000 - 12000 + 1) <? 0) with false
    by (symmetry; apply Z.ltb_ge; lia).
  eexists. reflexivity.
Qed.

(** X14.  When the processing of a row raises an exception, all it may have
    changed in the sheet are columns 3 to 7 of that row: with the status
    column beyond column 7, the row is not marked ['Completed'], and no other
    row is touched. *)
Theorem failed_row_is_not_marked (i n : Z) (r : row) (o o' : office) (e : exn) :
  7 < status_col_index ->
  process_row i n r o = Some (inl e, o') ->
  forall r' c',
    r' <> original_index r \/ c' < 3 \/ 7 < c' ->
    cells (sheet o') r' c' = cells (sheet o) r' c'.
Proof.
  intros Hcol H. change (kept r o o').
  unfold process_row in H.
  destruct (str_equal (Py.strip (Processing_Status r)) (U "Completed"));
    [ discriminate H | ].
  apply andthen_raises in H. destruct H as [H | (? & o1 & K1 & H)];
    [ discriminate H | ].
  apply kept_browse with (r := r) in K1.
  destruct (negb (Py.truthy (Py.strip (Keyword r)))
            || negb (Py.truthy (Py.strip (Company1 r))));
    [ discriminate H | ].
  apply andthen_raises in H. destruct H as [H | (found & o2 & K2 & H)];
    [ apply kept_browse with (r := r) in H; eauto using kept_trans | ].
  apply kept_browse with (r := r) in K2.
  pose proof (kept_trans _ _ _ _ K1 K2) as K. clear K1 K2.
  apply andthen_raises in H. destruct H as [H | (? & o3 & K3 & H)];
    [ apply kept_update in H; [ eauto using kept_trans | lia ] | ].
  apply kept_update in K3; [ | lia ].
  pose proof (kept_trans _ _ _ _ K K3) as K'. clear K K3.
  apply andthen_raises in H. destruct H as [H | (? & o4 & K4 & H)];
    [ apply kept_update in H; [ eauto using kept_trans | lia ] | ].
  apply kept_update in K4; [ | lia ].
  pose proof (kept_trans _ _ _ _ K' K4) as K. clear K' K4.
  apply andthen_raises in H. destruct H as [H | (analysed & o5 & K5 & H)];
    [ apply kept_browse with (r := r) in H; eauto using kept_trans | ].
  apply kept_browse with (r := r) in K5.
  pose proof (kept_trans _ _ _ _ K K5) as K'. clear K K5.
  apply andthen_raises in H. destruct H as [H | (? & o6 & K6 & H)];
    [ apply kept_update in H; [ eauto using kept_trans | lia ] | ].
  apply kept_update in K6; [ | lia ].
  pose proof (kept_trans _ _ _ _ K' K6) as K. clear K' K6.
  apply andthen_raises in H. destruct H as [H | (? & o7 & K7 & H)];
    [ apply kept_update in H; [ eauto using kept_trans | lia ] | ].
  apply kept_update in K7; [ | lia ].
  pose proof (kept_trans _ _ _ _ K K7) as K'. clear K K7.
  apply andthen_raises in H. destruct H as [H | (? & o8 & K8 & H)];
    [ apply kept_update in H; [ eauto using kept_trans | lia ] | ].
  apply kept_update in K8; [ | lia ].
  pose proof (kept_trans _ _ _ _ K' K8) as K. clear K' K8.
  assert (Hwrite : forall (outcome : res unit) oa ob,
             (if str_equal (status (snd analysed)) (U "Deletion")
              then update_cell (original_index r) 5 (Py.strip (Keyword r))
              else if str_equal (status (snd analysed)) (U "T&M")
              then update_cell (original_index r) 6 (fst analysed)
              else if str_equal (status (snd analysed)) (U "Content")
              then update_cell (original_index r) 7 (fst analysed)
              else done tt) oa = Some (outcome, ob) ->
             kept r oa ob).
  { intros outcome oa ob Hw.
    destruct (str_equal (status (snd analysed)) (U "Deletion"));
      [ apply kept_update in Hw; [ exact Hw | lia ] | ].
    destruct (str_equal (status (snd analysed)) (U "T&M"));
      [ apply kept_update in Hw; [ exact Hw | lia ] | ].
    destruct (str_equal (status (snd analysed)) (U "Content"));
      [ apply kept_update in Hw; [ exact Hw | lia ] | ].
    unfold done in Hw. injection Hw as _ <-. apply kept_refl. }
  apply andthen_raises in H. destruct H as [H | (? & o9 & K9 & H)];
    [ apply Hwrite in H; eauto using kept_trans | ].
  apply Hwrite in K9.
  pose proof (kept_trans _ _ _ _ K K9) as K'. clear K K9.
  apply andthen_raises in H. destruct H as [H | (? & o10 & _ & H)].
  - replace (status_col_index =? 0) with false in H
      by (symmetry; apply Z.eqb_neq; lia).
    apply andthen_raises in H. destruct H as [H | (? & o11 & _ & H)].
    + apply update_cell_result in H. destruct H as [_ E].
      eapply kept_trans; [ exact K' | ].
      intros r' c' _. rewrite E. reflexivity.
    + discriminate H.
  - exfalso. unfold browse, total in H.
    match type of H with
    | context [(logging_info ?msg ;; ?k) ?w0] =>
        destruct (break_returns msg w0) as [w' E]; rewrite E in H
    end.
    discriminate H.
Qed.

(** X15.  A run over rows that are all marked ['Completed'] or incomplete
    changes nothing: it ends without an exception, the sheet is as before
    and the browser has not been asked anything.  So a run that was stopped
    can be started again without touching what is done. *)
Theorem finished_sheet_is_left_alone (rows : list row) :
  forall (i n : Z) (o : office),
    Forall (fun r => Py.strip (Processing_Status r) = U "Completed"
                     \/ Py.strip (Keyword r) = []
                     \/ Py.strip (Company1 r) = []) rows ->
    exists o',
      process_rows i n rows o = Some (inr tt, o')
      /\ sheet o' = sheet o
      /\ calls (session o') = calls (session o)
      /\ page (session o') = page (session o).
Proof.
  induction rows as [ | r rows IH]; intros i n o Hall.
  - exists o. repeat split.
  - inversion Hall as [ | ? ? Hr Hrows]; subst.
    destruct (process_row_skips i n r o Hr) as (o1 & E1 & S1 & C1 & P1).
    destruct (IH (i + 1) n o1 Hrows) as (o' & E' & S' & C' & P').
    exists o'. cbn [process_rows]. unfold andthen. rewrite E1.
    split; [ exact E' | ]. repeat split; congruence.
Qed.

(** ** More on the checks of the funnel *)

(** X16.  When the driver raises nothing, the T&M check finds an issue
    exactly when the title is empty, or the meta description tag is missing,
    or the description (the empty string when the tag has no [content]) holds
    the placeholder glyph, or the title has fewer than 45 or more than 70
    characters, or the description fewer than 145 or more than 165. *)
Theorem tm_issue_conditions (w : world) (title : Py.str) (found : list element) :
  doc_title (page w) = inr title ->
  doc_find (page w) (clock w) META_DESCRIPTION_SELECTOR = inr found ->
  exists issue,
    fst (check_for_tm_optimization w) = inr issue
    /\ (issue = true <->
        title = []
        \/ found = []
        \/ exists tag tags,
             found = tag :: tags
             /\ (Py.contains PLACEHOLDER_GLYPH
                   (or_empty (el_attribute tag (U "content"))) = true
                 \/ Py.len title < 45 \/ 70 < Py.len title
                 \/ Py.len (or_empty (el_attribute tag (U "content"))) < 145
                 \/ 165 < Py.len (or_empty (el_attribute tag (U "content"))))).
Proof.
  intros Ht Hm.
  unfold check_for_tm_optimization, meta_description. run. unfold get_attribute.
  rewrite Ht. cbn [fst snd].
  destruct title as [ | c title]; cbn [Py.truthy negb].
  { exists true. split; [ reflexivity | ]. split; auto. }
  cbn [fst snd page clock traced logged]. rewrite Hm.
  destruct found as [ | tag tags].
  { exists true. split; [ reflexivity | ]. split; auto. }
  cbn [fst snd].
  set (description := or_empty (el_attribute tag (U "content"))).
  set (title_len := Py.len (c :: title)).
  destruct (Py.contains PLACEHOLDER_GLYPH description) eqn:G.
  { exists true. split; [ reflexivity | ]. split; [ intros _ | reflexivity ].
    right. right. exists tag, tags. auto. }
  destruct ((45 <=? title_len) && (title_len <=? 70)) eqn:T; cbn [negb].
  2:{ exists true. split; [ reflexivity | ]. split; [ intros _ | reflexivity ].
      right. right. exists tag, tags. split; [ reflexivity | ].
      apply andb_false_iff in T. rewrite !Z.leb_gt in T.
      unfold title_len, description in *. lia. }
  apply andb_prop in T. rewrite !Z.leb_le in T.
  destruct ((145 <=? Py.len description) && (Py.len description <=? 165)) eqn:D;
    cbn [negb].
  2:{ exists true. split; [ reflexivity | ]. split; [ intros _ | reflexivity ].
      right. right. exists tag, tags. split; [ reflexivity | ].
      apply andb_false_iff in D. rewrite !Z.leb_gt in D.
      unfold title_len, description in *. lia. }
  apply andb_prop in D. rewrite !Z.leb_le in D.
  exists false. split; [ reflexivity | ]. split; [ discriminate | ].
  intros [H | [H | (tag' & tags' & H & Hc)]]; try discriminate.
  injection H as <- <-. unfold title_len, description in *.
  destruct Hc as [Hc | Hc]; [ congruence | lia ].
Qed.









(** ** The wait for the result blocks *)





End Automator.

(** ** Example pages and sessions *)

Module Examples.

Fixpoint str_eqb (a b : Py.str) : bool :=
  match a, b with
  | [], [] => true
  | c :: a', d :: b' => N.eqb c d && str_eqb a' b'
  | _, _ => false
  end.

(** An element with a text, attributes and descendants, which reacts to
    nothing. *)
Definition node (text : Py.str) (attributes : list (Py.str * Py.str))
    (inside : list (Py.str * list element)) : element :=
  mkElement text
    (fun name =>
       option_map snd (find (fun a => str_eqb (fst a) name) attributes))
    (fun selector =>
       match find (fun s => str_eqb (fst s) selector) inside with
       | Some s => snd s
       | None => []
       end)
    (inr tt) (fun _ => inr None) (inr None).

Definition leaf : element := node [] [] [].

(** A document by its title and what its selectors find, at any time. *)
Definition static_page (title : res Py.str)
    (found : list (Py.str * res (list element))) : document :=
  mkDocument title []
    (fun _ selector =>
       match find (fun s => str_eqb (fst s) selector) found with
       | Some s => snd s
       | None => inr []
       end).

(** A session that shows [d], with the clock at 0, nothing traced or logged
    yet, no site to go to and a random source that always gives 0. *)
Definition session (d : document) : world :=
  mkWorld 0 d (fun _ => inl WebDriverException) (fun _ => 0) 0%nat [] [] [] [].

(** *** Pages of the audited site *)

Definition listing (no_results : bool) (title description count content : Py.str)
    : document :=
  static_page (inr title)
    [(DELETION_SELECTOR, inr (if no_results then [leaf] else []));
     (META_DESCRIPTION_SELECTOR, inr [node [] [(U "content", description)] []]);
     (PRODUCT_COUNT_SELECTOR, inr [node count [] []]);
     (SEO_CONTAINER_SELECTOR, inr [node content [] []])].

Definition words (n : nat) : Py.str := List.concat (repeat (U "word ") n).

(** A page at the thresholds: a title of 45 characters, a description of
    145, 13 products and 250 words. *)
Definition threshold_page : document :=
  listing false (repeat 84%N 45) (repeat 100%N 145) (U " - 13 items") (words 250).

(** A page with the no-results indicator and a title of 10 characters. *)
Definition no_results_page : document :=
  listing true (repeat 84%N 10) (repeat 100%N 145) (U " - 0 items") (words 250).

(** A page on which looking up the product count raises an error that is
    not a missing element. *)
Definition broken_count_page : document :=
  static_page (inr (repeat 84%N 45))
    [(META_DESCRIPTION_SELECTOR, inr [node [] [(U "content", repeat 100%N 145)] []]);
     (PRODUCT_COUNT_SELECTOR, inl WebDriverException);
     (SEO_CONTAINER_SELECTOR, inr [node (words 250) [] []])].

(** *** Results pages *)

Definition RESULT : Py.str := U "div.g".
Definition LINK : Py.str := U "a".
Definition NEXT : Py.str := U "a#pnnext".
Definition GOOGLE : Py.str := U "https://www.google.com".

(** A result block: whether it is marked as an advertisement, its heading if
    it has one, and its link if it has one, with the [href] if that is set. *)
Definition result_block (ad : bool) (heading : option Py.str)
    (link : option (option Py.str)) : element :=
  node [] []
    [(U "[data-text-ad]", if ad then [leaf] else []);
     (U "h3", match heading with Some h => [node h [] []] | None => [] end);
     (LINK, match link with
            | Some (Some href) => [node [] [(U "href", href)] []]
            | Some None => [leaf]
            | None => []
            end)].

(** A control that loads [target] when it is clicked. *)
Definition button (target : document) : element :=
  mkElement [] (fun _ => None) (fun _ => []) (inr tt) (fun _ => inr None)
    (inr (Some target)).

(** A results page: when it shows the CAPTCHA marker, its result blocks and
    the page its next-page control leads to, if it has one. *)
Definition results_page (captcha : Z -> bool) (blocks : list element)
    (next : option document) : document :=
  mkDocument (inr (U "results")) []
    (fun t selector =>
       if str_eqb selector RECAPTCHA_SELECTOR
       then inr (if captcha t then [leaf] else [])
       else if str_eqb selector RESULT then inr blocks
       else if str_eqb selector NEXT
       then inr match next with Some d => [button d] | None => [] end
       else inr []).

(** A search box that loads [results] when the query is submitted. *)
Definition search_box (results : document) : element :=
  mkElement [] (fun _ => None) (fun _ => []) (inr tt)
    (fun keys => if str_eqb keys RETURN then inr (Some results) else inr None)
    (inr None).

Definition home_page (boxes : list element) : document :=
  static_page (inr (U "Google")) [(SEARCH_INPUT_SELECTOR, inr boxes)].

(** A session in front of an empty page, with [home] at the search URL. *)
Definition browsing (home : document) : world :=
  mkWorld 0 (static_page (inr []) [])
    (fun url => if str_eqb url GOOGLE then inr home else inl WebDriverException)
    (fun _ => 0) 0%nat [] [] [] [].

(** The first page has an advertisement of the target, an entry of another
    site, a block without heading, an entry without link and an entry of a
    subdomain of example.com; the second page has the target. *)
Definition ad_entry : element :=
  result_block true (Some (U "Shop")) (Some (Some (U "https://shop.example/ad"))).
Definition other_entry : element :=
  result_block false (Some (U "Other shoes")) (Some (Some (U "http://other.com"))).
Definition untitled_entry : element :=
  result_block false None (Some (Some (U "https://shop.example/hidden"))).
Definition unlinked_entry : element :=
  result_block false (Some (U "No link")) None.
Definition foo_entry : element :=
  result_block false (Some (U "Foo")) (Some (Some (U "http://foo.example.com/x"))).

Definition page1_blocks : list element :=
  [ad_entry; other_entry; untitled_entry; unlinked_entry; foo_entry].

Definition page2_blocks : list element :=
  [result_block false (Some (U "Red shoes"))
     (Some (Some (U "https://shop.example/red-shoes")))].

Definition page2 : document := results_page (fun _ => false) page2_blocks None.
Definition page1 : document := results_page (fun _ => false) page1_blocks (Some page2).

(** The session of a rank search whose first results page is [page1]. *)
Definition searching : world := browsing (home_page [search_box page1]).

(** A results page whose CAPTCHA is solved after 12 seconds, and one whose
    CAPTCHA stays. *)
Definition solved_page : document :=
  results_page (fun t => t <? 12000) page2_blocks None.
Definition stuck_page : document := results_page (fun _ => true) page2_blocks None.

(** No detour. *)
Definition stay (target_url : Py.str) (w : world) : world := w.

(** The rank finder with the example selectors, a CAPTCHA timeout of five
    minutes and a check every five seconds. *)
Definition example_rank (keyword target_url : Py.str) : MO (Py.str * Py.str) :=
  find_google_rank RESULT LINK NEXT GOOGLE 300000 5000 stay keyword target_url.

Definition example_gate (keyword : Py.str) : MO bool :=
  handle_captcha 300000 5000 keyword.

(** The number of times a trace lists the result blocks of a page. *)
Definition scans (trace : list (Z * call)) : nat :=
  List.length
    (filter (fun c => match snd c with
                      | Find_elements selector => str_eqb selector RESULT
                      | _ => false
                      end) trace).

End Examples.

Import Examples.

(** ** The properties on the example pages *)

(** A page with the no-results indicator and a title of 10 characters is
    classified as Deletion, and the indicator is all the funnel looks up. *)
Example audit_short_circuit_example :
  let r := analyze_myntra_page Py.ascii_decimal (U "red shoes") [] (session no_results_page) in
  fst (check_for_tm_optimization (session no_results_page)) = inr true
  /\ fst r = inr (mkAnalysis (U "Deletion") (U "Yes"))
  /\ map snd (calls (snd r)) = [Find_elements DELETION_SELECTOR].
Proof. vm_compute. repeat split. Qed.

(** The thresholds, one page for each side of each of them. *)
Example audit_boundary_examples :
  let tm title := fst (check_for_tm_optimization
                         (session (listing false (repeat 84%N title) (repeat 100%N 145)
                                     (U "13") (words 250)))) in
  let count text := fst (is_product_count_sufficient Py.ascii_decimal
                           (session (listing false (repeat 84%N 45) (repeat 100%N 145)
                                       text (words 250)))) in
  let content n := fst (check_for_content_optimization
                          (session (listing false (repeat 84%N 45) (repeat 100%N 145)
                                      (U "13") (words n)))) in
  tm 44%nat = inr true /\ tm 45%nat = inr false
  /\ tm 70%nat = inr false /\ tm 71%nat = inr true
  /\ count (U "12 items") = inr false /\ count (U "13 items") = inr true
  /\ count (U "1,200 items") = inr true
  /\ content 249%nat = inr true /\ content 250%nat = inr false.
Proof. vm_compute. repeat split. Qed.

(** C3: the value returned with Deletion is not the keyword. *)
Lemma deletion_value_is_not_keyword :
  exists a w',
    analyze_myntra_page Py.ascii_decimal (U "red shoes") [] (session no_results_page)
    = (inr a, w')
    /\ status a = U "Deletion"
    /\ value a = U "Yes"
    /\ value a <> U "red shoes".
Proof.
  do 2 eexists. split; [ reflexivity | ].
  split; [ reflexivity | ]. split; [ reflexivity | discriminate ].
Qed.

Lemma deletion_value_is_yes_witness :
  doc_find (page (session no_results_page)) (clock (session no_results_page))
    DELETION_SELECTOR = inr [leaf]
  /\ exists w',
       analyze_myntra_page Py.ascii_decimal (U "red shoes") [] (session no_results_page)
       = (inr (mkAnalysis (U "Deletion") (U "Yes")), w').
Proof.
  split; [ reflexivity | ].
  apply (deletion_value_is_yes Py.ascii_decimal (U "red shoes") []
           (session no_results_page) leaf []).
  reflexivity.
Defined.


(** C8: an error that is not a missing element makes the product count
    check fail, and the page is classified as Low Product Count. *)
Lemma product_count_error_fails :
  doc_find (page (session broken_count_page)) (clock (session broken_count_page))
    PRODUCT_COUNT_SELECTOR = inl WebDriverException
  /\ fst (is_product_count_sufficient Py.ascii_decimal (session broken_count_page))
     = inr false
  /\ fst (analyze_myntra_page Py.ascii_decimal (U "red shoes") []
            (session broken_count_page))
     = inr (mkAnalysis (U "Low Product Count")
                       (U "Analysis stopped due to < 13 products.")).
Proof. repeat split. Qed.

Lemma check_errors_witness :
  exists w',
    is_product_count_sufficient Py.ascii_decimal (session broken_count_page)
    = (inr false, w')
    /\ log w' = [(ERROR, U "Error during product count check: WebDriverException")].
Proof.
  apply (proj1 (proj2 (proj2 (proj2
           (check_errors Py.ascii_decimal (session broken_count_page)
              WebDriverException))))).
  - reflexivity.
  - discriminate.
Defined.

Lemma scanner_ranks_organic_blocks_witness :
  shows RESULT (session page1) page1_blocks
  /\ filter organic page1_blocks = [other_entry; unlinked_entry; foo_entry]
  /\ map fst (enumerate (1 + 10) (filter organic page1_blocks)) = [11; 12; 13]
  /\ fst (_find_rank_on_current_page RESULT LINK (U "example.com") 10 (session page1))
     = inr (Some 13, Some (U "http://foo.example.com/x")).
Proof.
  assert (H : shows RESULT (session page1) page1_blocks) by (intros t; reflexivity).
  destruct (scanner_ranks_organic_blocks RESULT LINK (session page1)
              (U "example.com") 10 page1_blocks H)
    as (_ & _ & Hranks & _ & _ & Hscan).
  split; [ exact H | ].
  split; [ reflexivity | ].
  split; [ rewrite Hranks; reflexivity | ].
  rewrite Hscan. reflexivity.
Defined.

Lemma scanner_first_substring_match_witness :
  U "example.com" <> []
  /\ shows RESULT (session page1) page1_blocks
  /\ fst (_find_rank_on_current_page RESULT LINK (U "example.com") 0 (session page1))
     = inr (Some 3, Some (U "http://foo.example.com/x")).
Proof.
  assert (Hne : U "example.com" <> []) by discriminate.
  assert (H : shows RESULT (session page1) page1_blocks) by (intros t; reflexivity).
  pose proof (scanner_first_substring_match RESULT LINK (session page1)
                (U "example.com") 0 page1_blocks Hne H) as M.
  change (find (fun entry => links_to LINK (U "example.com") (snd entry))
            (enumerate (1 + 0) (filter organic page1_blocks)))
    with (Some (3, foo_entry)) in M.
  destruct M as (url & pre & post & Hurl & _ & Hscan).
  injection Hurl as <-.
  split; [ exact Hne | ]. split; [ exact H | exact Hscan ].
Defined.

Lemma link_failure_keeps_rank_witness :
  filter organic page1_blocks = [other_entry] ++ unlinked_entry :: [foo_entry]
  /\ el_find unlinked_entry LINK = []
  /\ enumerate (1 + 0) ([other_entry] ++ unlinked_entry :: [foo_entry])
     = [(1, other_entry); (2, unlinked_entry); (3, foo_entry)]
  /\ fst (_find_rank_on_current_page RESULT LINK (U "example.com") 0 (session page1))
     = inr (Some 3, Some (U "http://foo.example.com/x")).
Proof.
  assert (H : shows RESULT (session page1) page1_blocks) by (intros t; reflexivity).
  destruct (link_failure_keeps_rank RESULT LINK (session page1) (U "example.com") 0
              page1_blocks [other_entry] [foo_entry] unlinked_entry
              H eq_refl (or_introl eq_refl))
    as (Hranks & Hscan).
  split; [ reflexivity | ]. split; [ reflexivity | ].
  split; [ rewrite Hranks; reflexivity | ].
  rewrite Hscan. reflexivity.
Defined.

Lemma captcha_gate_witness :
  (exists w',
     example_gate (U "red shoes") (session solved_page) = Some (inr true, w')
     /\ map fst (calls w') = [0; 5000; 10000; 15000]
     /\ clock w' = 15000)
  /\ (exists n w',
        example_gate (U "red shoes") (session stuck_page) = Some (inr false, w')
        /\ calls w' = checks_from 5000 0 n
        /\ 300000 <= Z.of_nat n * 5000
        /\ clock w' = Z.of_nat n * 5000).
Proof.
  split.
  - destruct (proj1 (captcha_gate 300000 5000 (U "red shoes") (session solved_page))
                3%nat)
      as (w' & E & C & T).
    + reflexivity.
    + intros k Hk. destruct k as [ | [ | [ | k]]]; try lia;
        do 2 eexists; reflexivity.
    + reflexivity.
    + exists w'. split; [ exact E | ].
      split; [ rewrite C; reflexivity | rewrite T; reflexivity ].
  - destruct (proj2 (captcha_gate 300000 5000 (U "red shoes") (session stuck_page)))
      as (n & w' & E & C & _ & Hn & T).
    + intros k _. do 2 eexists. reflexivity.
    + exists n, w'. split; [ exact E | ]. split; [ exact C | ].
      split; [ exact Hn | exact T ].
Defined.

Lemma rank_search_contains_failures_witness :
  option_map fst
    (search RESULT LINK NEXT GOOGLE 300000 5000 stay (U "red shoes")
       (U "shop.example") (browsing (home_page [])))
  = Some (inl TimeoutException)
  /\ exists w',
       example_rank (U "red shoes") (U "shop.example") (browsing (home_page []))
       = Some (inr NOT_FOUND, w').
Proof.
  assert (H : option_map fst
                (search RESULT LINK NEXT GOOGLE 300000 5000 stay (U "red shoes")
                   (U "shop.example") (browsing (home_page [])))
              = Some (inl TimeoutException)) by (vm_compute; reflexivity).
  split; [ exact H | ].
  destruct (search RESULT LINK NEXT GOOGLE 300000 5000 stay (U "red shoes")
              (U "shop.example") (browsing (home_page [])))
    as [[r w1] | ] eqn:E; [ | discriminate H ].
  cbn in H. injection H as ->.
  destruct (proj1 (proj2 (rank_search_contains_failures RESULT LINK NEXT GOOGLE
                            300000 5000 stay (U "red shoes") (U "shop.example")
                            (browsing (home_page []))))
              TimeoutException w1 E)
    as (w' & F & _).
  exists w'. exact F.
Defined.

(** C4: with the page limit of 1 the second page is loaded and not scanned:
    the search lists the result blocks once and ends with the click on the
    next-page control, although the target is the first entry of the second
    page, where a loop over two pages finds it at rank 11. *)
Lemma second_page_is_not_scanned :
  option_map fst (example_rank (U "red shoes") (U "shop.example") searching)
  = Some (inr NOT_FOUND)
  /\ option_map (fun r => scans (calls (snd r)))
       (example_rank (U "red shoes") (U "shop.example") searching)
     = Some 1%nat
  /\ option_map (fun r => last (map snd (calls (snd r))) Title)
       (example_rank (U "red shoes") (U "shop.example") searching)
     = Some CLICK_SCRIPT
  /\ option_map fst
       (scrape_pages RESULT LINK NEXT 300000 5000 (U "red shoes") (U "shop.example")
          [1; 2] 0 (session page1))
     = Some (inr (Some (U "11", U "https://shop.example/red-shoes"))).
Proof. vm_compute. repeat split. Qed.

Lemma page_limit_ends_search_witness :
  first_match LINK (U "shop.example") (enumerate 1 (filter organic page1_blocks))
  = inr None
  /\ exists w',
       example_rank (U "red shoes") (U "shop.example") searching
       = Some (inr NOT_FOUND, w')
       /\ page w' = page2.
Proof.
  split; [ vm_compute; reflexivity | ].
  destruct (page_limit_ends_search RESULT LINK NEXT GOOGLE 300000 5000 stay
              (U "red shoes") (U "shop.example") searching
              (snd (submit_query GOOGLE stay (U "red shoes") (U "shop.example")
                      searching))
              page1_blocks (button page2) [] page2)
    as (w2 & before & t & _ & _ & _ & w' & E & P & _).
  - vm_compute. reflexivity.
  - intros t. vm_compute. reflexivity.
  - intros t. vm_compute. reflexivity.
  - vm_compute. reflexivity.
  - intros t. vm_compute. reflexivity.
  - reflexivity.
  - exists w'. split; [ exact E | exact P ].
Defined.
(** ** Example pages of the shop and a sheet *)

Module Shop.

Definition SHOES_URL : Py.str := U "https://www.myntra.com/red-shoes".

(** A listing page of the shop at [url], which has a body and shows its
    product count to the wait of the internal search. *)
Definition shop_page (url : Py.str) (no_results : bool)
    (title description count content : Py.str) : document :=
  mkDocument (inr title) url
    (fun t selector =>
       if str_eqb selector (U "body") then inr [leaf]
       else if str_eqb selector
                 (PRODUCT_COUNT_SELECTOR ++ U ", " ++ DELETION_SELECTOR)
       then inr [leaf]
       else doc_find (listing no_results title description count content)
                     t selector).

(** The listing for red shoes, as the search of the shop loads it, with a
    query string, and as it is at its clean URL: 1,234 products, 100 words. *)
Definition shoes_listing (url : Py.str) : document :=
  shop_page url false (repeat 84%N 45) (repeat 100%N 145) (U " - 1,234 items")
            (words 100).

Definition shoes_found : document :=
  shoes_listing (SHOES_URL ++ U "?rawQuery=red shoes").

(** The page of the shop the rank search leads to, with the search bar. *)
Definition shop_home : document :=
  static_page (inr (U "Myntra")) [(INTERNAL_SEARCH_SELECTOR, inr [search_box shoes_found])].

Definition the_web (url : Py.str) : res document :=
  if str_eqb url GOOGLE then inr (home_page [search_box page1])
  else if str_eqb url (U "http://foo.example.com/x") then inr shop_home
  else if str_eqb url SHOES_URL then inr (shoes_listing SHOES_URL)
  else inl WebDriverException.

(** A session in front of an empty page, with the web above. *)
Definition online : world :=
  mkWorld 0 (static_page (inr []) []) the_web (fun _ => 0) 0%nat [] [] [] [].

(** An empty sheet and the session; [outage] says which writes fail. *)
Definition desk (outage : nat -> option exn) : office :=
  mkOffice (mkSheet (fun _ _ => []) 0%nat outage) online.

Definition shoes_row : row := mkRow (U " red shoes ") (U "example.com") [] 2.
Definition done_row : row := mkRow (U "blue shirts") (U "example.com") (U "Completed ") 3.
Definition blank_row : row := mkRow (U "  ") (U "example.com") [] 4.

(** The loop body and the loop with the example selectors and the status in
    column 8. *)
Abbreviation example_row :=
  (process_row Py.ascii_decimal RESULT LINK NEXT GOOGLE 300000 5000 stay 8).
Abbreviation example_rows :=
  (process_rows Py.ascii_decimal RESULT LINK NEXT GOOGLE 300000 5000 stay 8).

End Shop.

Import Shop.

(** ** The further properties on the example pages *)

(** X4: no site answers in [session], so the search falls back to the start
    URL and drops its query string. *)
Lemma internal_search_falls_back_witness :
  fst (perform_internal_search (U "red shoes") (U "https://shop.example/p?x=1")
         (session no_results_page))
  = inr (U "https://shop.example/p").
Proof.
  rewrite (internal_search_falls_back (U "red shoes")
             (U "https://shop.example/p?x=1") (session no_results_page)).
  - reflexivity.
  - intros d H. discriminate H.
Defined.

(** X5: from the page the rank search found, the search of the shop leads to
    the listing for red shoes, and its URL is returned without the query. *)
Lemma internal_search_finds_page_witness :
  exists w',
    perform_internal_search (U "red shoes") (U "http://foo.example.com/x") online
    = (inr SHOES_URL, w')
    /\ page w' = shoes_found.
Proof.
  destruct (internal_search_finds_page (U "red shoes") (U "http://foo.example.com/x")
              online shop_home shoes_found (search_box shoes_found) leaf [] [])
    as (w' & E & P); try reflexivity.
  exists w'. split; [ exact E | exact P ].
Defined.


(** X9: the query leads to a page with a marker that stays; the search ends
    with Not Found on that page. *)
Lemma unsolved_captcha_ends_search_witness :
  exists w',
    example_rank (U "red shoes") (U "shop.example")
      (browsing (home_page [search_box stuck_page]))
    = Some (inr NOT_FOUND, w')
    /\ page w' = stuck_page.
Proof.
  destruct (unsolved_captcha_ends_search RESULT LINK NEXT GOOGLE 300000 5000 stay
              (U "red shoes") (U "shop.example")
              (browsing (home_page [search_box stuck_page]))
              (snd (submit_query GOOGLE stay (U "red shoes") (U "shop.example")
                      (browsing (home_page [search_box stuck_page])))))
    as (w' & made & E & P & _).
  - vm_compute. reflexivity.
  - intros t. do 2 eexists. vm_compute. reflexivity.
  - exists w'. split; [ exact E | ]. rewrite P. reflexivity.
Defined.

(** X10: of the advertisement of the shop, another site and a subdomain of
    example.com, the links left for a detour away from shop.example are the
    last two. *)
Lemma detour_links_avoid_target_witness :
  exists links,
    non_target_links LINK (U "shop.example") [ad_entry; other_entry; foo_entry]
    = inr links
    /\ map (fun link => or_empty (el_attribute link (U "href"))) links
       = [U "http://other.com"; U "http://foo.example.com/x"]
    /\ Forall (fun link =>
                 Py.contains (U "shop.example")
                   (or_empty (el_attribute link (U "href"))) = false
                 /\ exists result,
                      In result [ad_entry; other_entry; foo_entry]
                      /\ find_element_in result LINK = inr link)
              links.
Proof.
  eexists. split; [ reflexivity | ]. split; [ reflexivity | ].
  apply (detour_links_avoid_target LINK). reflexivity.
Defined.

(** X12: two characters are typed with two keystrokes and two pauses. *)
Lemma keyword_is_typed_in_order_witness :
  exists w',
    type_keyword (search_box page1) (U "ab") (session page1) = (inr tt, w')
    /\ map snd (calls w') = [Send_keys (U "a"); Send_keys (U "b")]
    /\ drawn w' = 2%nat.
Proof.
  destruct (keyword_is_typed_in_order (search_box page1) (U "ab") (session page1))
    as (w' & E & C & _ & D & _).
  - intros c [<- | [<- | []]]; reflexivity.
  - exists w'. split; [ exact E | ]. split; [ exact C | exact D ].
Defined.


(** X14: the sheet refuses the fourth write, the one of column 6: the row is
    left without its mark. *)
Lemma failed_row_is_not_marked_witness :
  exists o',
    example_row 0 1 shoes_row
      (desk (fun k => if Nat.eqb k 3 then Some WebDriverException else None))
    = Some (inl WebDriverException, o')
    /\ cells (sheet o') 2 8 = [].
Proof.
  assert (H : option_map fst
                (example_row 0 1 shoes_row
                   (desk (fun k => if Nat.eqb k 3 then Some WebDriverException
                                   else None)))
              = Some (inl WebDriverException)) by (vm_compute; reflexivity).
  destruct (example_row 0 1 shoes_row
              (desk (fun k => if Nat.eqb k 3 then Some WebDriverException else None)))
    as [[r o'] | ] eqn:E; [ | discriminate H ].
  cbn in H. injection H as ->.
  exists o'. split; [ reflexivity | ].
  rewrite (failed_row_is_not_marked Py.ascii_decimal RESULT LINK NEXT GOOGLE
             300000 5000 stay 8 0 1 shoes_row
             (desk (fun k => if Nat.eqb k 3 then Some WebDriverException else None))
             o' WebDriverException);
    [ reflexivity | lia | exact E | right; right; lia ].
Defined.

(** X15: a row that is done and a row without keyword: nothing happens. *)
Lemma finished_sheet_is_left_alone_witness :
  exists o',
    example_rows 0 2 [done_row; blank_row] (desk (fun _ => None))
    = Some (inr tt, o')
    /\ sheet o' = sheet (desk (fun _ => None)).
Proof.
  destruct (finished_sheet_is_left_alone Py.ascii_decimal RESULT LINK NEXT GOOGLE
              300000 5000 stay 8 [done_row; blank_row] 0 2 (desk (fun _ => None)))
    as (o' & E & S & _).
  - repeat apply Forall_cons; [ left | right; left | apply Forall_nil ];
      reflexivity.
  - exists o'. split; [ exact E | exact S ].
Defined.

(** X16: the page at the thresholds has no T&M issue. *)
Lemma tm_issue_conditions_witness :
  fst (check_for_tm_optimization (session threshold_page)) = inr false.
Proof.
  destruct (tm_issue_conditions (session threshold_page) (repeat 84%N 45)
              [node [] [(U "content", repeat 100%N 145)] []])
    as (issue & E & I); [ reflexivity | reflexivity | ].
  rewrite E. f_equal.
  destruct issue; [ exfalso | reflexivity ].
  destruct (proj1 I eq_refl) as [H | [H | (tag & tags & H & C)]];
    try discriminate H.
  injection H as <- <-. vm_compute in C.
  destruct C as [C | [C | [C | [C | C]]]]; discriminate C.
Defined.


